(** * Kisan-Salhakar: the Punjab crop advisory prediction core

    A shallow embedding of the yield-prediction code of
    [Punjab_Crop_Advisory] and the properties its specification states:

    - [src/prediction.py]               (module [Prediction])
    - [models/prediction_function.py]   (module [PredictionFunction])
    - [crop_prediction_api.py]          (module [CropPredictionApi])

    Conventions of the embedding.

    - Python numbers ([int], [float], numpy scalars) are exact rationals
      [Q]: binary rounding, infinities and NaN are not represented, so a
      statement about a number is a statement about a finite number
      computed exactly.
    - Python strings are Rocq strings; [str.lower] and [str.title] act on
      the ASCII letters.
    - A Python [dict] with string keys is a [gmap string pyval]; a raised
      exception is the [Raise] result of the [res] monad. *)

From Stdlib Require Import QArith Qround Qabs Qminmax Lqa ZArith Lia.
From Stdlib Require Import String Ascii List Sorted DecimalString.
From stdpp Require Import gmap strings list.

Local Open Scope Z_scope.
Local Open Scope Q_scope.
Local Open Scope string_scope.

(** ** Python strings *)

Module PyStr.

Definition is_upper (c : ascii) : bool :=
  let n := nat_of_ascii c in (Nat.leb 65 n && Nat.leb n 90)%bool.

Definition is_lower (c : ascii) : bool :=
  let n := nat_of_ascii c in (Nat.leb 97 n && Nat.leb n 122)%bool.

Definition lower_char (c : ascii) : ascii :=
  if is_upper c then ascii_of_nat (nat_of_ascii c + 32) else c.

Definition upper_char (c : ascii) : ascii :=
  if is_lower c then ascii_of_nat (nat_of_ascii c - 32) else c.

(** [s.lower()] *)
Fixpoint lower (s : string) : string :=
  match s with
  | EmptyString => EmptyString
  | String c s' => String (lower_char c) (lower s')
  end.

(** [s.title()]: a letter that follows a letter is lowered, a letter
    that follows anything else is raised. *)
Fixpoint title_from (prev_cased : bool) (s : string) : string :=
  match s with
  | EmptyString => EmptyString
  | String c s' =>
      if (is_upper c || is_lower c)%bool
      then String (if prev_cased then lower_char c else upper_char c)
                  (title_from true s')
      else String c (title_from false s')
  end.

Definition title (s : string) : string := title_from false s.

(** [s.endswith(suffix)] *)
Definition endswith (s suffix : string) : bool :=
  let n := String.length s in
  let k := String.length suffix in
  (Nat.leb k n && String.eqb (substring (n - k) k s) suffix)%bool.

(** [s.replace(old, new)] for a non-empty [old]: every occurrence,
    scanning from the left, occurrences not overlapping.  [skip] counts
    the characters of a match that are still to be dropped. *)
Fixpoint replace_from (skip : nat) (old new s : string) : string :=
  match s with
  | EmptyString => EmptyString
  | String c s' =>
      match skip with
      | S k => replace_from k old new s'
      | O =>
          if String.prefix old s
          then new ++ replace_from (String.length old - 1) old new s'
          else String c (replace_from O old new s')
      end
  end.

Definition replace (s old new : string) : string := replace_from O old new s.

(** [x in l] for a list of strings *)
Definition str_in (x : string) (l : list string) : bool :=
  existsb (String.eqb x) l.

End PyStr.

(** ** Python numbers *)

Module PyNum.

(** [max(a, b)]: the first of the largest arguments. *)
Definition py_max (a b : Q) : Q := if Qlt_le_dec a b then b else a.

(** [min(a, b)]: the first of the smallest arguments. *)
Definition py_min (a b : Q) : Q := if Qlt_le_dec b a then b else a.

(** Rounding to the nearest integer, a tie going to the even one. *)
Definition round_half_even (x : Q) : Z :=
  let f := Qfloor x in
  match Qcompare (x - inject_Z f) (1 # 2) with
  | Lt => f
  | Gt => (f + 1)%Z
  | Eq => if Z.even f then f else (f + 1)%Z
  end.

Definition pow10 (ndigits : nat) : Q := inject_Z (10 ^ Z.of_nat ndigits).

(** [round(x, ndigits)] *)
Definition round (x : Q) (ndigits : nat) : Q :=
  inject_Z (round_half_even (x * pow10 ndigits)) / pow10 ndigits.

Definition Qleb (a b : Q) : bool := if Qlt_le_dec b a then false else true.
Definition Qltb (a b : Q) : bool := if Qlt_le_dec a b then true else false.
Definition Qeqb (a b : Q) : bool := Qeq_bool a b.

End PyNum.

Import PyNum.

(** ** Python values, exceptions and the result monad *)

#[local] Set Warnings "-register-all".
Inductive pyval : Type :=
| VNone
| VNum (q : Q)
| VStr (s : string)
| VList (l : list pyval)
| VDict (d : list (string * pyval)).

Inductive exn : Type :=
| TypeError
| ZeroDivisionError
| AttributeError
| KeyError (key : string)
| HTTPException (status_code : Z) (detail : string)
| Raised (msg : string).   (* raised inside a model, a scaler or an encoder *)

Inductive res (A : Type) : Type :=
| Ok (a : A)
| Raise (e : exn).
Arguments Ok {A} a.
Arguments Raise {A} e.

#[global] Instance res_ret : MRet res := fun A a => Ok a.
#[global] Instance res_bind : MBind res := fun A B f m =>
  match m with
  | Ok a => f a
  | Raise e => Raise e
  end.

(** [try: c except: handler] with a bare [except] *)
Definition try_except {A} (c : res A) (handler : A) : A :=
  match c with
  | Ok a => a
  | Raise _ => handler
  end.

(** The computation returned, raising nothing. *)
Definition is_ok {A} (c : res A) : bool :=
  match c with
  | Ok _ => true
  | Raise _ => false
  end.

(** [[f x for x in l]] when [f] may raise *)
Fixpoint for_each {A B} (f : A -> res B) (l : list A) : res (list B) :=
  match l with
  | [] => Ok []
  | x :: l' => y ← f x; ys ← for_each f l'; Ok (y :: ys)
  end.

(** Arithmetic on values: a number is needed on the value side, the
    other operand is a numeric literal of the source. *)
Definition as_num (v : pyval) : res Q :=
  match v with
  | VNum q => Ok q
  | _ => Raise TypeError
  end.

(** [a / b] *)
Definition py_div (a b : Q) : res Q :=
  if Qeq_bool b 0 then Raise ZeroDivisionError else Ok (a / b).

(** [d.get(k, default)] *)
Definition dict_get (d : gmap string pyval) (k : string) (default : pyval) : pyval :=
  match d !! k with
  | Some v => v
  | None => default
  end.

(** [d[k]] *)
Definition dict_item (d : gmap string pyval) (k : string) : res pyval :=
  match d !! k with
  | Some v => Ok v
  | None => Raise (KeyError k)
  end.

(** [v.lower()] on a value that need not be a string *)
Definition val_lower (v : pyval) : res string :=
  match v with
  | VStr s => Ok (PyStr.lower s)
  | _ => Raise AttributeError
  end.

(** [l.append(x)] *)
Definition list_append {A} (l : list A) (x : A) : list A := (l ++ [x])%list.

(** [d[k]] used as a number *)
Definition num_item (d : gmap string pyval) (k : string) : res Q :=
  v ← dict_item d k; as_num v.

(** ** The model artifact ([pickle] package)

    [predict] is [model.predict(features_array)[0]]; [estimators_] is
    present when the model is an ensemble ([hasattr(model, 'estimators_')]).
    An encoder is [encoder.transform([x])[0]]; a scaler is
    [scaler.transform].  All of them are opaque and may raise. *)

Record model_t : Type := {
  predict : list pyval -> res Q;
  estimators_ : option (list (list pyval -> res Q))
}.

Record model_package : Type := {
  model : model_t;
  feature_names : list string;
  label_encoders : gmap string (pyval -> res pyval);
  scaler : option (list pyval -> res (list pyval));
  use_scaling : bool;
  model_name : string
}.

(** ** [src/prediction.py] *)

Module Prediction.

(** The names [engineer_features] writes. *)
Definition derived_features : list string :=
  [ "vegetation_health_score"; "soil_fertility_index"; "heat_stress";
    "cold_stress"; "drought_risk"; "yield_potential_score";
    "N_P_ratio"; "N_K_ratio"; "P_K_ratio"; "is_kharif"; "is_rabi" ].

(** [x in [1, 2]] *)
Definition in_1_2 (v : pyval) : bool :=
  match v with
  | VNum q => (Qeq_bool q 1 || Qeq_bool q 2)%bool
  | _ => false
  end.

(** [CropYieldPredictor.engineer_features] *)
Definition engineer_features (input_data : gmap string pyval)
  : res (gmap string pyval) :=
  (* vegetation health score *)
  let ndvi := dict_get input_data "ndvi_mean" (VNum 0.6) in
  let ndwi := dict_get input_data "ndwi_mean" (VNum 0.3) in
  ndvi ← as_num ndvi;
  ndwi ← as_num ndwi;
  let vegetation_health_score := ndvi * 0.7 + ndwi * 0.3 in
  (* soil fertility index *)
  let oc := dict_get input_data "organic_carbon" (VNum 0.5) in
  let n_avail := dict_get input_data "N_available" (VNum 180) in
  let p_avail := dict_get input_data "P_available" (VNum 15) in
  oc ← as_num oc;
  n_avail ← as_num n_avail;
  p_avail ← as_num p_avail;
  let soil_fertility_index :=
    oc / 1 * 0.4 + n_avail / 300 * 0.3 + p_avail / 30 * 0.3 in
  (* stress factors *)
  let temp := dict_get input_data "temperature" (VNum 25) in
  temp ← as_num temp;
  let heat_stress := py_max 0 ((temp - 35) / 10) in
  let cold_stress := py_max 0 ((10 - temp) / 10) in
  let rainfall := dict_get input_data "rainfall" (VNum 0) in
  let humidity := dict_get input_data "humidity" (VNum 70) in
  rainfall ← as_num rainfall;
  drought_risk ←
    (if Qltb rainfall 1
     then humidity ← as_num humidity;
          if Qltb humidity 40 then Ok (1 - humidity / 100) else Ok 0
     else Ok 0);
  (* nutrient ratios *)
  let k_avail := dict_get input_data "K_available" (VNum 250) in
  n_p_ratio ← py_div n_avail (p_avail + 1);
  k_avail ← as_num k_avail;
  n_k_ratio ← py_div n_avail (k_avail + 1);
  p_k_ratio ← py_div p_avail (k_avail + 1);
  (* overall yield potential *)
  let yield_potential_score :=
    vegetation_health_score * 0.35 +
    soil_fertility_index * 0.40 +
    (1 - heat_stress - drought_risk) * 0.25 in
  (* seasonal features *)
  let crop_type_encoded := dict_get input_data "crop_type_encoded" (VNum 0) in
  let is_kharif := if in_1_2 crop_type_encoded then 1 else 0 in
  let is_rabi := 1 - is_kharif in
  Ok (<["is_rabi" := VNum is_rabi]>
     (<["is_kharif" := VNum is_kharif]>
     (<["P_K_ratio" := VNum p_k_ratio]>
     (<["N_K_ratio" := VNum n_k_ratio]>
     (<["N_P_ratio" := VNum n_p_ratio]>
     (<["yield_potential_score" := VNum yield_potential_score]>
     (<["drought_risk" := VNum drought_risk]>
     (<["cold_stress" := VNum cold_stress]>
     (<["heat_stress" := VNum heat_stress]>
     (<["soil_fertility_index" := VNum soil_fertility_index]>
     (<["vegetation_health_score" := VNum vegetation_health_score]>
      input_data))))))))))).

(** [CropYieldPredictor._categorize_yield] *)
Definition _categorize_yield (yield_val : Q) (crop_type : pyval) : res string :=
  c ← val_lower crop_type;
  if String.eqb c "wheat" then
    if Qleb 4500 yield_val then Ok "High"
    else if Qleb 3500 yield_val then Ok "Medium"
    else Ok "Low"
  else if String.eqb c "rice" then
    if Qleb 6000 yield_val then Ok "High"
    else if Qleb 5000 yield_val then Ok "Medium"
    else Ok "Low"
  else if String.eqb c "cotton" then
    if Qleb 500 yield_val then Ok "High"
    else if Qleb 350 yield_val then Ok "Medium"
    else Ok "Low"
  else Ok "Unknown".

(** [CropYieldPredictor._get_recommendations] *)
Definition _get_recommendations (features : gmap string pyval)
    (crop_type : pyval) : res (list string) :=
  let recommendations : list string := [] in
  heat ← num_item features "heat_stress";
  let recommendations :=
    if Qltb 0.2 heat
    then list_append recommendations "High heat stress detected - consider heat-resistant varieties and adequate irrigation"
    else recommendations in
  drought ← num_item features "drought_risk";
  let recommendations :=
    if Qltb 0.2 drought
    then list_append recommendations "Drought risk present - ensure adequate irrigation and water management"
    else recommendations in
  fertility ← num_item features "soil_fertility_index";
  let recommendations :=
    if Qltb fertility 0.5
    then list_append recommendations "Low soil fertility - consider applying balanced fertilizers (NPK)"
    else recommendations in
  health ← num_item features "vegetation_health_score";
  let recommendations :=
    if Qltb health 0.4
    then list_append recommendations "Poor vegetation health - check plant nutrition and pest management"
    else recommendations in
  n_p ← num_item features "N_P_ratio";
  let recommendations :=
    if Qltb 15 n_p
    then list_append recommendations "High N:P ratio - consider phosphorus supplementation"
    else if Qltb n_p 5
    then list_append recommendations "Low N:P ratio - consider nitrogen supplementation"
    else recommendations in
  pH ← as_num (dict_get features "pH" (VNum 7.0));
  let recommendations :=
    if Qltb pH 6.5
    then list_append recommendations "Acidic soil - consider lime application to improve pH"
    else if Qltb 8.5 pH
    then list_append recommendations "Highly alkaline soil - consider gypsum application"
    else recommendations in
  c ← val_lower crop_type;
  recommendations ←
    (if String.eqb c "wheat" then
       t ← num_item features "temperature";
       if Qltb 25 t
       then Ok (list_append recommendations "Temperature stress for wheat - consider early sowing next season")
       else Ok recommendations
     else if String.eqb c "rice" then
       r ← as_num (dict_get features "rainfall" (VNum 0));
       if Qltb r 2
       then Ok (list_append recommendations "Insufficient water for rice - ensure adequate irrigation")
       else Ok recommendations
     else if String.eqb c "cotton" then
       t ← num_item features "temperature";
       if Qltb t 20
       then Ok (list_append recommendations "Temperature too low for cotton - ensure proper timing")
       else Ok recommendations
     else Ok recommendations);
  match recommendations with
  | [] =>
      potential ← num_item features "yield_potential_score";
      if Qltb 0.7 potential
      then Ok ["Excellent growing conditions - maintain current practices"]
      else Ok ["Good conditions overall - minor optimizations can improve yield"]
  | _ => Ok recommendations
  end.

Section Predictor.

(** [np.std], the formatting [str(v)] of a value that is not a
    string, and the text [str(e)] of an exception belong to numpy and
    to Python. *)
Variable np_std : list Q -> Q.
Variable py_repr : pyval -> string.
Variable exn_str : exn -> string.

(** [str(v)] *)
Definition py_str (v : pyval) : string :=
  match v with
  | VStr s => s
  | _ => py_repr v
  end.

(** The loop of [predict_yield] over [feature_names], with the two
    lists it appends to. *)
Fixpoint assemble_features (encoders : gmap string (pyval -> res pyval))
    (complete_input : gmap string pyval) (names : list string)
    (features : list pyval) (missing_features : list string)
  : list pyval * list string :=
  match names with
  | [] => (features, missing_features)
  | feature :: names' =>
      if PyStr.endswith feature "_encoded" then
        let original_col := PyStr.replace feature "_encoded" "" in
        match encoders !! original_col, complete_input !! original_col with
        | Some encoder, Some v =>
            let encoded_val :=
              try_except (encoder (VStr (py_str v))) (VNum 0) in
            assemble_features encoders complete_input names'
              (list_append features encoded_val) missing_features
        | _, _ =>
            assemble_features encoders complete_input names'
              (list_append features (VNum 0))
              (list_append missing_features feature)
        end
      else
        match complete_input !! feature with
        | Some v =>
            assemble_features encoders complete_input names'
              (list_append features v) missing_features
        | None =>
            assemble_features encoders complete_input names'
              (list_append features (VNum 0))
              (list_append missing_features feature)
        end
  end.

(** The body of the [try] block of [predict_yield]. *)
Definition predict_yield_body (pkg : model_package)
    (input_data : gmap string pyval) : res (gmap string pyval) :=
  let model := model pkg in
  let feature_names := feature_names pkg in
  let encoders := label_encoders pkg in
  complete_input ← engineer_features input_data;
  let '(features, missing_features) :=
    assemble_features encoders complete_input feature_names [] [] in
  features_array ←
    (if use_scaling pkg
     then match scaler pkg with
          | Some sc => sc features
          | None => Ok features
          end
     else Ok features);
  prediction ← predict model features_array;
  '(lower_bound, upper_bound) ←
    match estimators_ model with
    | Some estimators =>
        predictions ← for_each (fun estimator => estimator features_array) estimators;
        let prediction_std := np_std predictions in
        Ok (prediction - 1.96 * prediction_std,
            prediction + 1.96 * prediction_std)
    | None =>
        let prediction_std := prediction * 0.1 in
        Ok (prediction - 1.96 * prediction_std,
            prediction + 1.96 * prediction_std)
    end;
  let crop_type := dict_get input_data "crop_type" (VStr "Unknown") in
  yield_category ← _categorize_yield prediction crop_type;
  vhs ← num_item complete_input "vegetation_health_score";
  sfi ← num_item complete_input "soil_fertility_index";
  yps ← num_item complete_input "yield_potential_score";
  hs ← num_item complete_input "heat_stress";
  dr ← num_item complete_input "drought_risk";
  recommendations ← _get_recommendations complete_input crop_type;
  Ok (<["missing_features_count" :=
          VNum (inject_Z (Z.of_nat (length missing_features)))]>
     (<["recommendations" := VList (map VStr recommendations)]>
     (<["engineered_features" :=
          VDict [ ("vegetation_health_score", VNum (round vhs 3));
                  ("soil_fertility_index", VNum (round sfi 3));
                  ("yield_potential_score", VNum (round yps 3));
                  ("heat_stress", VNum (round hs 3));
                  ("drought_risk", VNum (round dr 3)) ]]>
     (<["model_used" := VStr (model_name pkg)]>
     (<["yield_category" := VStr yield_category]>
     (<["confidence_interval" := VStr "95%"]>
     (<["upper_bound" := VNum (round upper_bound 1)]>
     (<["lower_bound" := VNum (round (py_max 0 lower_bound) 1)]>
     (<["predicted_yield" := VNum (round prediction 1)]> ∅))))))))).

(** [CropYieldPredictor.predict_yield]; [model_package] is [None] when
    loading failed. *)
Definition predict_yield (model_package : option model_package)
    (input_data : gmap string pyval) : gmap string pyval :=
  match model_package with
  | None => {[ "error" := VStr "Model not loaded" ]}
  | Some pkg =>
      match predict_yield_body pkg input_data with
      | Ok result => result
      | Raise e => {[ "error" := VStr ("Prediction failed: " ++ exn_str e) ]}
      end
  end.

(** [str(n)] for a natural number *)
Definition str_nat (n : nat) : string := NilZero.string_of_uint (Nat.to_uint n).

(** The loop of [predict_multiple_scenarios]; [i] is the index that
    [enumerate] gives. *)
Fixpoint scenarios_loop (model_package : option model_package)
    (scenarios_list : list (gmap string pyval)) (i : nat)
    (results : list (gmap string pyval)) : list (gmap string pyval) :=
  match scenarios_list with
  | [] => results
  | scenario :: scenarios_list' =>
      let result := predict_yield model_package scenario in
      let result := <["scenario_id" := VNum (inject_Z (Z.of_nat (i + 1)))]> result in
      let result :=
        <["scenario_name" :=
            dict_get scenario "name" (VStr ("Scenario " ++ str_nat (i + 1)))]> result in
      scenarios_loop model_package scenarios_list' (S i) (list_append results result)
  end.

(** [CropYieldPredictor.predict_multiple_scenarios] *)
Definition predict_multiple_scenarios (model_package : option model_package)
    (scenarios_list : list (gmap string pyval)) : list (gmap string pyval) :=
  scenarios_loop model_package scenarios_list 0 [].

End Predictor.

End Prediction.

(** ** [models/prediction_function.py] *)

Module PredictionFunction.

Section Predict.

Variable np_std : list Q -> Q.

(** The loop of [predict_crop_yield] over [feature_names]. *)
Fixpoint prepare_features (encoders : gmap string (pyval -> res pyval))
    (input_data : gmap string pyval) (names : list string)
    (features : list pyval) : list pyval :=
  match names with
  | [] => features
  | feature :: names' =>
      if PyStr.endswith feature "_encoded" then
        let original_col := PyStr.replace feature "_encoded" "" in
        match encoders !! original_col, input_data !! original_col with
        | Some encoder, Some v =>
            let encoded_val := try_except (encoder v) (VNum 0) in
            prepare_features encoders input_data names'
              (list_append features encoded_val)
        | _, _ =>
            prepare_features encoders input_data names'
              (list_append features (VNum 0))
        end
      else
        prepare_features encoders input_data names'
          (list_append features (dict_get input_data feature (VNum 0)))
  end.

(** [predict_crop_yield], from the package that [pickle.load] gave. *)
Definition predict_crop_yield (input_data : gmap string pyval)
    (model_pkg : model_package) : res (gmap string pyval) :=
  let model := model model_pkg in
  let feature_names := feature_names model_pkg in
  let encoders := label_encoders model_pkg in
  let features := prepare_features encoders input_data feature_names [] in
  features_array ←
    (if use_scaling model_pkg
     then match scaler model_pkg with
          | Some sc => sc features
          | None => Ok features
          end
     else Ok features);
  prediction ← predict model features_array;
  '(lower_bound, upper_bound) ←
    match estimators_ model with
    | Some estimators =>
        predictions ← for_each (fun estimator => estimator features_array) estimators;
        let prediction_std := np_std predictions in
        Ok (prediction - 1.96 * prediction_std,
            prediction + 1.96 * prediction_std)
    | None =>
        let prediction_std := prediction * 0.1 in
        Ok (prediction - 1.96 * prediction_std,
            prediction + 1.96 * prediction_std)
    end;
  Ok (<["model_used" := VStr (model_name model_pkg)]>
     (<["confidence_interval" := VStr "95%"]>
     (<["upper_bound" := VNum (round upper_bound 1)]>
     (<["lower_bound" := VNum (round (py_max 0 lower_bound) 1)]>
     (<["predicted_yield" := VNum (round prediction 1)]> ∅))))).

End Predict.

End PredictionFunction.

(** ** [crop_prediction_api.py] *)

Module CropPredictionApi.

Module Request.
(** [CropPredictionRequest] *)
Record t : Type := {
  crop : string;
  acres : Q;
  latitude : Q;
  longitude : Q;
  year : option Z;
  season : option string
}.
End Request.

Module Params.
(** The dictionary [estimate_parameters] returns. *)
Record t : Type := {
  year : Z;
  latitude : Q;
  longitude : Q;
  season : string;
  sowing_month : Z;
  temperature : Q;
  humidity : Q;
  rainfall : Q;
  wind_speed : Q;
  pH : Q;
  organic_carbon : Q;
  N_available : Q;
  P_available : Q;
  K_available : Q;
  ndvi_mean : Q;
  ndwi_mean : Q;
  blue : Q;
  green : Q;
  red : Q;
  nir : Q
}.
End Params.

Definition rabi_crops : list string :=
  ["wheat"; "barley"; "mustard"; "potato"; "peas"].
Definition kharif_crops : list string :=
  ["rice"; "corn"; "maize"; "cotton"; "soybean"; "sugarcane"].

(** [estimate_parameters]; [now_year] is [datetime.now().year]. *)
Definition estimate_parameters (now_year : Z) (crop district : string)
    (latitude longitude : Q) (year : option Z) : Params.t :=
  let year := match year with None => now_year | Some y => y end in
  let '(season, sowing_month) :=
    if PyStr.str_in (PyStr.lower crop) rabi_crops then ("rabi", 11%Z)
    else if PyStr.str_in (PyStr.lower crop) kharif_crops then ("kharif", 6%Z)
    else ("rabi", 11%Z) in
  let lat_factor := (latitude - 31.0) * 0.4 in
  let lon_factor := (longitude - 75.5) * 0.3 in
  let '(temperature, humidity, rainfall) :=
    if String.eqb season "rabi"
    then (22.0 + lat_factor, 70.0 - Qabs lat_factor * 2, 550.0 + lat_factor * 25)
    else (28.0 + lat_factor, 75.0 - Qabs lat_factor, 800.0 + lat_factor * 40) in
  let wind_speed := 8.0 + Qabs lon_factor in
  let pH := 7.1 + (latitude - 31.0) * 0.1 in
  let organic_carbon := 0.6 + lon_factor * 0.05 in
  let N_available := 270.0 + lat_factor * 10 in
  let P_available := 22.0 + lon_factor * 2 in
  let K_available := 310.0 + lat_factor * 15 in
  {| Params.year := year;
     Params.latitude := latitude;
     Params.longitude := longitude;
     Params.season := season;
     Params.sowing_month := sowing_month;
     Params.temperature := round temperature 1;
     Params.humidity := round humidity 1;
     Params.rainfall := round rainfall 0;
     Params.wind_speed := round wind_speed 1;
     Params.pH := round pH 1;
     Params.organic_carbon := round organic_carbon 2;
     Params.N_available := round N_available 1;
     Params.P_available := round P_available 1;
     Params.K_available := round K_available 1;
     Params.ndvi_mean := 0.75;
     Params.ndwi_mean := 0.35;
     Params.blue := 0.08;
     Params.green := 0.12;
     Params.red := 0.15;
     Params.nir := 0.40 |}.

(** [CropRecommendation] *)
Record CropRecommendation : Type := {
  crop_name : string;
  suitability_score : Q;
  expected_yield : Q;
  profitability : string;
  reasons : list string;
  tips : list string
}.

(** An entry of [crop_database]. *)
Record crop_data : Type := {
  base_yield : Q;
  seasons : list string;
  min_temp : Q;
  max_temp : Q;
  water_requirement : string;
  soil_ph : Q * Q;
  cd_profitability : string;
  market_demand : string
}.

Definition crop_database : list (string * crop_data) :=
  [ ("wheat",
     {| base_yield := 1800; seasons := ["rabi"]; min_temp := 15; max_temp := 25;
        water_requirement := "medium"; soil_ph := (6.5, 7.5);
        cd_profitability := "High"; market_demand := "Very High" |});
    ("rice",
     {| base_yield := 2200; seasons := ["kharif"]; min_temp := 22; max_temp := 35;
        water_requirement := "high"; soil_ph := (6.0, 7.0);
        cd_profitability := "High"; market_demand := "Very High" |});
    ("cotton",
     {| base_yield := 900; seasons := ["kharif"]; min_temp := 20; max_temp := 35;
        water_requirement := "medium"; soil_ph := (5.8, 8.0);
        cd_profitability := "Very High"; market_demand := "High" |});
    ("maize",
     {| base_yield := 2000; seasons := ["kharif"; "rabi"]; min_temp := 18; max_temp := 32;
        water_requirement := "medium"; soil_ph := (6.0, 7.5);
        cd_profitability := "Medium"; market_demand := "High" |});
    ("sugarcane",
     {| base_yield := 2800; seasons := ["annual"]; min_temp := 20; max_temp := 35;
        water_requirement := "very_high"; soil_ph := (6.5, 7.5);
        cd_profitability := "Very High"; market_demand := "High" |});
    ("mustard",
     {| base_yield := 1100; seasons := ["rabi"]; min_temp := 10; max_temp := 25;
        water_requirement := "low"; soil_ph := (6.0, 7.5);
        cd_profitability := "Medium"; market_demand := "Medium" |});
    ("barley",
     {| base_yield := 1600; seasons := ["rabi"]; min_temp := 12; max_temp := 22;
        water_requirement := "low"; soil_ph := (6.0, 7.8);
        cd_profitability := "Medium"; market_demand := "Medium" |});
    ("potato",
     {| base_yield := 2500; seasons := ["rabi"]; min_temp := 15; max_temp := 25;
        water_requirement := "medium"; soil_ph := (5.5, 6.5);
        cd_profitability := "High"; market_demand := "Very High" |}) ].

Definition tips_database : list (string * list string) :=
  [ ("wheat",
     [ "Plant wheat in November for optimal yield in Punjab climate";
       "Use certified seeds with 100-120 kg/acre seeding rate";
       "Apply balanced NPK fertilizer: 120:60:30 kg/acre";
       "Ensure 4-5 irrigations during growing season";
       "Monitor for rust diseases and apply fungicides if needed";
       "Harvest when moisture content is 20-25% for best quality" ]);
    ("rice",
     [ "Transplant 25-30 day old seedlings in June-July";
       "Maintain 2-3 cm water level throughout growing season";
       "Use recommended varieties like PR-126, PR-121 for Punjab";
       "Apply silicon fertilizer to strengthen stems";
       "Practice direct seeded rice (DSR) to save water";
       "Monitor for brown plant hopper and stem borer" ]);
    ("cotton",
     [ "Plant Bt cotton varieties approved for Punjab";
       "Sow in May for optimal fiber quality";
       "Maintain plant population of 80,000-100,000 plants/acre";
       "Deep plowing and good drainage essential";
       "Regular monitoring for pink bollworm required";
       "Harvest when 60% bolls are open for best fiber quality" ]);
    ("maize",
     [ "Use hybrid varieties for higher yield potential";
       "Plant with 60cm row spacing and 20cm plant distance";
       "Side-dress nitrogen at knee-high stage";
       "Ensure adequate moisture during tasseling and grain filling";
       "Monitor for fall armyworm and stem borer";
       "Harvest at 18-20% moisture for good storage" ]);
    ("sugarcane",
     [ "Plant healthy setts from 8-10 month old canes";
       "Ensure proper drainage to prevent water logging";
       "Apply organic manure before planting";
       "Regular earthing up and gap filling essential";
       "Monitor for red rot and smut diseases";
       "Harvest at optimal maturity (12 months) for maximum sugar" ]);
    ("mustard",
     [ "Sow in October for timely harvest before heat";
       "Use line sowing with 30cm row spacing";
       "Light irrigation during flowering stage";
       "Apply sulfur fertilizer for better oil content";
       "Monitor for aphids and white rust disease";
       "Harvest when pods turn brown but not fully dry" ]);
    ("barley",
     [ "Choose malting or feed varieties based on market";
       "Sow in November for avoiding heat stress";
       "Requires less water compared to wheat";
       "Apply moderate nitrogen to avoid lodging";
       "Good rotation crop after paddy";
       "Harvest when grain moisture is around 20%" ]);
    ("potato",
     [ "Use certified seed potatoes for disease-free crop";
       "Plant in raised beds for better drainage";
       "Hill up regularly to prevent greening of tubers";
       "Monitor soil moisture - avoid over and under watering";
       "Watch for late blight especially in humid conditions";
       "Harvest when skin is firm and doesn't rub off easily" ]) ].

(** [table.get(key, default)] on a table kept in source order *)
Fixpoint assoc_get {A} (table : list (string * A)) (key : string) (default : A) : A :=
  match table with
  | [] => default
  | (k, v) :: table' => if String.eqb k key then v else assoc_get table' key default
  end.

(** [get_crop_specific_tips] *)
Definition get_crop_specific_tips (crop_name : string)
    (latitude longitude farm_size : Q) : list string :=
  let crop_tips :=
    assoc_get tips_database (PyStr.lower crop_name)
      [ "Research best practices for " ++ crop_name ++ " cultivation";
        "Consult local agricultural extension officer for " ++ crop_name ++ " guidance";
        "Consider market prices before growing " ++ crop_name ] in
  let location_tips : list string := [] in
  let location_tips :=
    if Qltb 31.5 latitude
    then list_append location_tips "Your northern location is ideal for cool-season crops"
    else if Qltb latitude 30.5
    then list_append location_tips "Your southern location suits warm-season crops better"
    else location_tips in
  let location_tips :=
    if Qleb 50 farm_size
    then list_append location_tips "Consider mechanization for large farm operations"
    else if Qleb farm_size 5
    then list_append location_tips "Focus on intensive cultivation methods for small farms"
    else location_tips in
  (crop_tips ++ location_tips)%list.

(** The sort key [(x.suitability_score, x.expected_yield)] and the
    order of Python tuples on it. *)
Definition sort_key (x : CropRecommendation) : Q * Q :=
  (suitability_score x, expected_yield x).

Definition key_lt (k1 k2 : Q * Q) : bool :=
  (Qltb (fst k1) (fst k2) || (Qeqb (fst k1) (fst k2) && Qltb (snd k1) (snd k2)))%bool.

(** [l.sort(key=sort_key, reverse=True)]: the stable sort into
    descending key order, as an insertion sort. *)
Fixpoint insert_desc (x : CropRecommendation) (l : list CropRecommendation)
  : list CropRecommendation :=
  match l with
  | [] => [x]
  | y :: l' =>
      if key_lt (sort_key x) (sort_key y) then y :: insert_desc x l' else x :: l
  end.

Definition sort_reverse (l : list CropRecommendation) : list CropRecommendation :=
  foldr insert_desc [] l.

(** The body of the loop of [get_crop_recommendations] for one entry of
    [crop_database]: [None] is [continue]. *)
Definition recommend_crop (latitude longitude : Q) (current_crop : string)
    (farm_size : Q) (current_season : string) (lat_factor size_factor : Q)
    (crop_name : string) (crop_data : crop_data) : option CropRecommendation :=
  if String.eqb (PyStr.lower crop_name) (PyStr.lower current_crop) then None
  else if (negb (PyStr.str_in current_season (seasons crop_data))
           && negb (PyStr.str_in "annual" (seasons crop_data)))%bool then None
  else
    let suitability_score := 0.7 in
    let suitability_score :=
      if (Qleb 30.5 latitude && Qleb latitude 31.5
          && Qleb 75.0 longitude && Qleb longitude 76.5)%bool
      then suitability_score + 0.2 else suitability_score in
    let suitability_score :=
      if Qleb 10 farm_size then suitability_score + 0.1 else suitability_score in
    let expected_yield := base_yield crop_data * lat_factor * size_factor in
    let reasons : list string := [] in
    let reasons :=
      if PyStr.str_in (cd_profitability crop_data) ["High"; "Very High"]
      then list_append reasons
             ("High profitability - " ++ cd_profitability crop_data ++ " returns expected")
      else reasons in
    let reasons :=
      if PyStr.str_in (market_demand crop_data) ["High"; "Very High"]
      then list_append reasons
             ("Strong market demand - " ++ market_demand crop_data ++ " buyer interest")
      else reasons in
    let reasons :=
      if String.eqb (water_requirement crop_data) "low"
      then list_append reasons "Water efficient - suitable for sustainable farming"
      else reasons in
    let reasons :=
      if (Qltb 31.0 latitude && PyStr.str_in crop_name ["wheat"; "rice"])%bool
      then list_append reasons "Excellent climate match for this region"
      else reasons in
    let reasons :=
      if (Qleb 20 farm_size && PyStr.str_in crop_name ["cotton"; "sugarcane"])%bool
      then list_append reasons "Large farm size ideal for commercial cultivation"
      else reasons in
    let tips := get_crop_specific_tips crop_name latitude longitude farm_size in
    Some {| crop_name := PyStr.title crop_name;
            suitability_score := round (py_min 1.0 suitability_score) 2;
            expected_yield := round expected_yield 1;
            profitability := cd_profitability crop_data;
            reasons := take 3 reasons;
            tips := take 3 tips |}.

(** The loop over [crop_database.items()]. *)
Fixpoint recommend_loop (latitude longitude : Q) (current_crop : string)
    (farm_size : Q) (current_season : string) (lat_factor size_factor : Q)
    (items : list (string * crop_data))
    (recommendations : list CropRecommendation) : list CropRecommendation :=
  match items with
  | [] => recommendations
  | (crop_name, crop_data) :: items' =>
      match recommend_crop latitude longitude current_crop farm_size
              current_season lat_factor size_factor crop_name crop_data with
      | None =>
          recommend_loop latitude longitude current_crop farm_size
            current_season lat_factor size_factor items' recommendations
      | Some r =>
          recommend_loop latitude longitude current_crop farm_size
            current_season lat_factor size_factor items'
            (list_append recommendations r)
      end
  end.

(** [get_crop_recommendations] *)
Definition get_crop_recommendations (latitude longitude : Q)
    (current_crop : string) (farm_size : Q) (season : string)
  : list CropRecommendation :=
  let recommendations : list CropRecommendation := [] in
  let current_season := PyStr.lower season in
  let lat_factor := 1.0 + (latitude - 31.0) * 0.02 in
  let size_factor := py_min 1.2 (1.0 + (farm_size - 5.0) * 0.01) in
  let recommendations :=
    recommend_loop latitude longitude current_crop farm_size current_season
      lat_factor size_factor crop_database recommendations in
  let recommendations := sort_reverse recommendations in
  take 5 recommendations.

(** [get_general_farming_tips] *)
Definition get_general_farming_tips (season : string) (latitude farm_size : Q)
  : list string :=
  let tips :=
    [ "Conduct soil testing every 2-3 years for optimal fertilizer management";
      "Practice crop rotation to maintain soil health and break pest cycles";
      "Use drip irrigation or sprinkler systems to conserve water";
      "Maintain farm records for input costs and yield tracking";
      "Join farmer producer organizations (FPOs) for better market access" ] in
  let tips :=
    if String.eqb (PyStr.lower season) "kharif" then
      (tips ++ [ "Ensure proper drainage during monsoon season";
                 "Monitor weather forecasts for pest and disease outbreaks";
                 "Stock up on plant protection chemicals before monsoon" ])%list
    else if String.eqb (PyStr.lower season) "rabi" then
      (tips ++ [ "Plan irrigation schedule as winter has less rainfall";
                 "Take advantage of cooler weather for farm operations";
                 "Prepare for harvesting equipment rental in advance" ])%list
    else tips in
  let tips :=
    if Qltb 31.0 latitude
    then list_append tips "Take advantage of your region's reputation for quality wheat"
    else tips in
  let tips :=
    if Qleb 25 farm_size
    then list_append tips "Consider contract farming for assured market and prices"
    else list_append tips "Focus on value addition and direct marketing" in
  take 6 tips.

(** [x in l] for a list of integers *)
Definition int_in (x : Z) (l : list Z) : bool := existsb (Z.eqb x) l.

(** [get_seasonal_advice]; [now_month] is [datetime.now().month]. *)
Definition get_seasonal_advice (now_month : Z) (season : string) (latitude : Q)
    (current_month : option Z) : string :=
  let current_month :=
    match current_month with None => now_month | Some m => m end in
  let advice := "" in
  let advice :=
    if String.eqb (PyStr.lower season) "rabi" then
      if int_in current_month [10; 11]%Z then
        "🌾 RABI SEASON: Perfect time for wheat sowing. Prepare fields and arrange quality seeds. Ensure timely planting to avoid heat stress during grain filling stage."
      else if int_in current_month [12; 1; 2]%Z then
        "❄️ WINTER CARE: Monitor crop growth and provide irrigation as needed. Watch for pest infestations in cool weather. Apply nitrogen top-dressing if required."
      else if int_in current_month [3; 4]%Z then
        "🌾 HARVEST TIME: Prepare for rabi harvest. Check grain moisture and arrange harvest machinery. Plan for immediate marketing or proper storage to avoid post-harvest losses."
      else
        "🔄 FIELD PREPARATION: Use this time for land preparation, soil testing, and planning next rabi season. Consider green manuring with summer crops."
    else if String.eqb (PyStr.lower season) "kharif" then
      if int_in current_month [5; 6]%Z then
        "🌱 KHARIF PREPARATION: Prepare nurseries for rice and get ready for kharif sowing. Ensure water availability and check irrigation systems. Pre-monsoon field preparation is crucial."
      else if int_in current_month [7; 8; 9]%Z then
        "🌧️ MONSOON SEASON: Monitor crops for pest and disease outbreaks. Ensure proper drainage. This is crucial growth period - maintain optimal plant nutrition and protection."
      else if int_in current_month [10; 11]%Z then
        "🌾 KHARIF HARVEST: Prepare for kharif harvest. Monitor grain maturity and weather forecasts. Plan storage facilities and explore marketing options for better prices."
      else
        "☀️ SUMMER SEASON: Consider summer crops like fodder maize or green manure crops. This is ideal time for deep plowing and soil health improvement activities."
    else advice in
  if Qltb 31.5 latitude then
    advice ++ " Your northern Punjab location has advantages for wheat cultivation and cooler climate crops."
  else if Qltb latitude 30.5 then
    advice ++ " Your location is well-suited for cotton and other warm-season crops."
  else advice.

(** The demo model of [create_dummy_model]: [DummyModel.predict] on one
    row.  [float_str] is [str] on a number of the row, [random] the value
    that [random.random()] draws; an index out of the row raises inside
    the model. *)
Definition base_yields : list (string * Q) :=
  [ ("wheat", 1800); ("rice", 2200); ("corn", 2000); ("maize", 2000);
    ("cotton", 900); ("soybean", 1300); ("barley", 1600); ("mustard", 1100) ].

Definition row_item (row : list Q) (i : nat) : res Q :=
  match row !! i with
  | Some x => Ok x
  | None => Raise (Raised "index out of bounds")
  end.

Definition dummy_predict_row (py_hash : string -> Z) (float_str : Q -> string)
    (random : Q) (row : list Q) : res Q :=
  row2 ← row_item row 2;
  let crop_hash :=
    (py_hash (PyStr.lower (float_str row2)) mod Z.of_nat (length base_yields))%Z in
  let crop_types := map fst base_yields in
  estimated_crop ←
    match crop_types !! Z.to_nat (crop_hash mod Z.of_nat (length crop_types))%Z with
    | Some c => Ok c
    | None => Raise (Raised "index out of bounds")
    end;
  let base_yield := assoc_get base_yields estimated_crop 1500 in
  row1 ← row_item row 1;
  let lat_factor := 1.0 + (row1 - 31.0) * 0.02 in
  row0 ← row_item row 0;
  let size_factor := py_min 1.2 (1.0 + (row0 - 5.0) * 0.01) in
  let predicted_yield := base_yield * lat_factor * size_factor in
  let variation := 0.85 + random * 0.3 in
  let predicted_yield := predicted_yield * variation in
  Ok (py_max 800 (py_min 3500 predicted_yield)).

Section Endpoint.

(** [hash] on strings is salted per process. *)
Variable py_hash : string -> Z.

(** The feature row the [/api/v1/predict] handler builds. *)
Definition predict_features (request : Request.t) (estimated_params : Params.t)
  : list Q :=
  let season_is (s : string) : Q :=
    if String.eqb (Params.season estimated_params) s then 1 else 0 in
  let month_is (m : Z) : Q :=
    if Z.eqb (Params.sowing_month estimated_params) m then 1 else 0 in
  [ Request.acres request;
    Request.latitude request;
    Request.longitude request;
    Params.temperature estimated_params;
    Params.humidity estimated_params;
    Params.rainfall estimated_params;
    Params.wind_speed estimated_params;
    Params.pH estimated_params;
    Params.organic_carbon estimated_params;
    Params.N_available estimated_params;
    Params.P_available estimated_params;
    Params.K_available estimated_params;
    Params.ndvi_mean estimated_params;
    Params.ndwi_mean estimated_params;
    Params.blue estimated_params;
    Params.green estimated_params;
    Params.red estimated_params;
    Params.nir estimated_params;
    inject_Z ((py_hash (PyStr.lower (Request.crop request))) mod 100)%Z;
    season_is "Kharif";
    season_is "Rabi";
    season_is "Summer";
    month_is 1%Z; month_is 2%Z; month_is 3%Z; month_is 4%Z;
    month_is 5%Z; month_is 6%Z; month_is 7%Z; month_is 8%Z;
    month_is 9%Z; month_is 10%Z; month_is 11%Z; month_is 12%Z;
    2025;
    1;
    30.0;
    0.8;
    1.0 ].

(** The answer of the handler, as far as the prediction goes: the
    texts of the farming tips and the seasonal advice, the echo of
    the request and the time stamp are left out. *)
Record CropPredictionResponse : Type := {
  success : bool;
  predicted_yield : Q;
  yield_range_minimum : Q;
  yield_range_maximum : Q;
  confidence : string;
  estimated_parameters_season : string;
  crop_recommendations : list CropRecommendation
}.

(** The [try] block of the handler [predict_crop_yield]; [model] is
    the global [model], [None] when no model is loaded. *)
Definition predict_crop_yield_body (model : option (list Q -> res Q))
    (request : Request.t) : res CropPredictionResponse :=
  match model with
  | None => Raise (HTTPException 503 "Prediction model not available")
  | Some model_predict =>
      let estimated_params :=
        estimate_parameters 2025 (Request.crop request) "Ludhiana"
          (Request.latitude request) (Request.longitude request) (Some 2025%Z) in
      let features := predict_features request estimated_params in
      prediction ← model_predict features;
      let lower_bound := prediction * 0.85 in
      let upper_bound := prediction * 1.15 in
      let confidence :=
        if Qltb 2000 prediction then "High"
        else if Qltb 1200 prediction then "Medium"
        else "Low" in
      let crop_recommendations :=
        get_crop_recommendations (Request.latitude request)
          (Request.longitude request) (Request.crop request)
          (Request.acres request) (Params.season estimated_params) in
      Ok {| success := true;
            predicted_yield := round prediction 1;
            yield_range_minimum := round lower_bound 1;
            yield_range_maximum := round upper_bound 1;
            confidence := confidence;
            estimated_parameters_season := Params.season estimated_params;
            crop_recommendations := crop_recommendations |}
  end.

Variable exn_str : exn -> string.

(** The handler: whatever the [try] block raises leaves as an
    [HTTPException] with status 500. *)
Definition predict_crop_yield (model : option (list Q -> res Q))
    (request : Request.t) : res CropPredictionResponse :=
  match predict_crop_yield_body model request with
  | Ok response => Ok response
  | Raise e => Raise (HTTPException 500 ("Prediction failed: " ++ exn_str e))
  end.

End Endpoint.

End CropPredictionApi.

(** ** [flask_frontend.py] *)

Module FlaskFrontend.

(** The part of [prediction_data] that the [/predict] route derives from
    the crop and the latitude of the form. *)
Record prediction_data : Type := {
  sowing_month : Z;
  season : string;
  temperature : Q;
  humidity : Q;
  rainfall : Q;
  wind_speed : Q
}.

(** The smart defaults of [predict]. *)
Definition smart_defaults (crop : string) (latitude : Q) : prediction_data :=
  let '(season, sowing_month) :=
    if PyStr.str_in (PyStr.lower crop) ["wheat"; "barley"; "mustard"; "potato"]
    then ("rabi", 11%Z)
    else ("kharif", 6%Z) in
  let lat_factor := (latitude - 30.0) * 0.5 in
  let temperature := 25.0 + lat_factor in
  let humidity := 65.0 - lat_factor in
  let rainfall := 650.0 + lat_factor * 20 in
  let wind_speed := 8.0 + Qabs lat_factor in
  {| sowing_month := sowing_month;
     season := season;
     temperature := temperature;
     humidity := humidity;
     rainfall := rainfall;
     wind_speed := wind_speed |}.

End FlaskFrontend.

(** ** [fastapi_backend.py] *)

Module FastapiBackend.

(** [PredictionInput] *)
Record PredictionInput : Type := {
  longitude : Q;
  latitude : Q;
  crop : string;
  farm_size_acres : Q;
  district : string;
  sowing_month : Z;
  season : string;
  temperature : Q;
  humidity : Q;
  rainfall : Q;
  wind_speed : Q;
  pH : Q;
  organic_carbon : Q;
  N_available : Q;
  P_available : Q;
  K_available : Q;
  ndvi_mean : Q;
  ndwi_mean : Q;
  blue : Q;
  green : Q;
  red : Q;
  nir : Q;
  year : Z
}.

(** [PredictionResponse], without the echo of the input and the time
    stamp; [model_type] and [prediction_value] are the entries of
    [model_info]. *)
Record PredictionResponse : Type := {
  prediction : string;
  model_type : string;
  prediction_value : string
}.

(** The demo model of [create_dummy_model]: [DummyModel.predict] on one
    row; [random] is the value that [random.random()] draws. *)
Definition base_yields : list (string * Q) :=
  [ ("wheat", 1500); ("rice", 2000); ("corn", 1800); ("cotton", 800);
    ("soybean", 1200); ("barley", 1400); ("maize", 1800) ].

Definition dummy_predict_row (random : Q) (row : list Q) : Q :=
  let farm_size := if Nat.ltb 3 (length row) then nth 3 row 0 else 5.0 in
  let crop_factor := 1.0 in
  let lat_factor :=
    if Nat.ltb 1 (length row) then 1.0 + (nth 1 row 0 - 30) * 0.01 else 1.0 in
  let lon_factor :=
    if Nat.ltb 0 (length row) then 1.0 + (nth 0 row 0 - 75) * 0.005 else 1.0 in
  let base_yield := CropPredictionApi.assoc_get base_yields "wheat" 1500 in
  let predicted_yield := base_yield * lat_factor * lon_factor * crop_factor in
  let predicted_yield := predicted_yield * (0.9 + random * 0.2) in
  py_max 500 (py_min 3000 predicted_yield).

(** The value of ['soil_pH_category'] *)
Definition soil_pH_category (pH : Q) : string :=
  if (Qleb 6.5 pH && Qleb pH 7.5)%bool then "neutral"
  else if Qltb pH 6.5 then "acidic"
  else "alkaline".

(** The dictionary [prediction_input] of the handler. *)
Definition prediction_input (input_data : PredictionInput) : gmap string pyval :=
  <["soil_pH_category" := VStr (soil_pH_category (pH input_data))]>
  (<["data_source_weather" := VStr "api"]>
  (<["data_source_soil" := VStr "api"]>
  (<["soil_health_status" := VStr "good"]>
  (<["data_source" := VStr "api"]>
  (<["season" := VStr (season input_data)]>
  (<["district" := VStr (district input_data)]>
  (<["crop_type" := VStr (crop input_data)]>
  (<["sowing_month" := VNum (inject_Z (sowing_month input_data))]>
  (<["wind_speed" := VNum (wind_speed input_data)]>
  (<["rainfall" := VNum (rainfall input_data)]>
  (<["humidity" := VNum (humidity input_data)]>
  (<["temperature" := VNum (temperature input_data)]>
  (<["K_available" := VNum (K_available input_data)]>
  (<["P_available" := VNum (P_available input_data)]>
  (<["N_available" := VNum (N_available input_data)]>
  (<["organic_carbon" := VNum (organic_carbon input_data)]>
  (<["pH" := VNum (pH input_data)]>
  (<["nir" := VNum (nir input_data)]>
  (<["red" := VNum (red input_data)]>
  (<["green" := VNum (green input_data)]>
  (<["blue" := VNum (blue input_data)]>
  (<["ndwi_mean" := VNum (ndwi_mean input_data)]>
  (<["ndvi_mean" := VNum (ndvi_mean input_data)]>
  (<["longitude" := VNum (longitude input_data)]>
  (<["latitude" := VNum (latitude input_data)]>
  (<["year" := VNum (inject_Z (year input_data))]> ∅)))))))))))))))))))))))))).

Section Predict.

(** [np.std]; the salted [hash]; [str(e)]; the text of a value in an
    f-string, plain ([{x}]) and with one decimal ([{x:.1f}]). *)
Variable np_std : list Q -> Q.
Variable py_hash : string -> Z.
Variable exn_str : exn -> string.
Variable val_str : pyval -> string.
Variable fixed1 : Q -> string.

(** The inner [try] block of [predict]: the prediction function on the
    package that [pickle.load] gave, if it gave one. *)
Definition comprehensive_prediction (loaded : res model_package)
    (input_data : PredictionInput) : res (pyval * string * gmap string pyval) :=
  model_pkg ← loaded;
  result ← PredictionFunction.predict_crop_yield np_std
              (prediction_input input_data) model_pkg;
  predicted_value ← dict_item result "predicted_yield";
  lower_bound ← dict_item result "lower_bound";
  upper_bound ← dict_item result "upper_bound";
  let prediction_text :=
    "Predicted yield: " ++ val_str predicted_value ++ " kg/acre (Range: " ++
    val_str lower_bound ++ "-" ++ val_str upper_bound ++ " kg/acre)" in
  Ok (predicted_value, prediction_text, result).

(** The handler of the inner [except]: the model on four features. *)
Definition fallback_prediction (model_predict : list Q -> res Q)
    (input_data : PredictionInput) : res (pyval * string * gmap string pyval) :=
  let input_array :=
    [ longitude input_data;
      latitude input_data;
      inject_Z ((py_hash (PyStr.lower (crop input_data))) mod 100)%Z;
      farm_size_acres input_data ] in
  prediction_raw ← model_predict input_array;
  let predicted_value := prediction_raw in
  let prediction_text :=
    "Predicted yield: " ++ fixed1 predicted_value ++ " kg/acre (fallback model)" in
  Ok (VNum predicted_value, prediction_text,
      <["model_used" := VStr "fallback"]>
        (<["predicted_yield" := VNum predicted_value]> ∅)).

(** [f"{predicted_value:.1f}"]; a value that is no number cannot be
    formatted so. *)
Definition format_fixed1 (v : pyval) : res string :=
  match v with
  | VNum q => Ok (fixed1 q)
  | _ => Raise TypeError
  end.

(** An entry of [model_info], a [Dict[str, str]]: the response model
    refuses a value that is no string. *)
Definition str_entry (v : pyval) : res string :=
  match v with
  | VStr s => Ok s
  | _ => Raise (Raised "Input should be a valid string")
  end.

(** The outer [try] block of [predict]; [model] is the global [model],
    [loaded] what loading the package gives at this request. *)
Definition predict_body (model : option (list Q -> res Q))
    (loaded : res model_package) (input_data : PredictionInput)
  : res PredictionResponse :=
  match model with
  | None => Raise (HTTPException 503 "Model not loaded")
  | Some model_predict =>
      '(predicted_value, prediction_text, result) ←
        match comprehensive_prediction loaded input_data with
        | Ok r => Ok r
        | Raise model_error => fallback_prediction model_predict input_data
        end;
      used ← str_entry (dict_get result "model_used" (VStr "RandomForestRegressor"));
      value_text ← format_fixed1 predicted_value;
      Ok {| prediction := prediction_text;
            model_type := used;
            prediction_value := value_text |}
  end.

(** The handler [predict]. *)
Definition predict (model : option (list Q -> res Q))
    (loaded : res model_package) (input_data : PredictionInput)
  : res PredictionResponse :=
  match predict_body model loaded input_data with
  | Ok response => Ok response
  | Raise e => Raise (HTTPException 500 ("Prediction failed: " ++ exn_str e))
  end.

End Predict.

End FastapiBackend.

(** ** Vocabulary of the specification *)

(** The order [Low < Medium < High] on yield categories. *)
Definition category_rank (category : string) : option nat :=
  if String.eqb category "Low" then Some 0%nat
  else if String.eqb category "Medium" then Some 1%nat
  else if String.eqb category "High" then Some 2%nat
  else None.

Definition category_le (c1 c2 : string) : Prop :=
  match category_rank c1, category_rank c2 with
  | Some r1, Some r2 => (r1 <= r2)%nat
  | _, _ => False
  end.

(** The crop types [_categorize_yield] has thresholds for. *)
Definition has_thresholds (crop_type : string) : bool :=
  PyStr.str_in (PyStr.lower crop_type) ["wheat"; "rice"; "cotton"].

(** The category that the threshold triple [(high, medium)] gives. *)
Definition by_thresholds (high medium yield_val : Q) (category : string) : Prop :=
  (high <= yield_val -> category = "High") /\
  (medium <= yield_val < high -> category = "Medium") /\
  (yield_val < medium -> category = "Low").

(** A schema feature with the suffix of an encoded column, and the
    column it encodes. *)
Definition encoded_feature (feature : string) : bool :=
  PyStr.endswith feature "_encoded".

Definition base_column (feature : string) : string :=
  PyStr.replace feature "_encoded" "".

(** A schema feature is absent when there is nothing to take its value
    from: no encoder or no value for the column of an encoded feature, no
    value for any other feature. *)
Definition absent (encoders : gmap string (pyval -> res pyval))
    (input : gmap string pyval) (feature : string) : bool :=
  if encoded_feature feature then
    match encoders !! base_column feature, input !! base_column feature with
    | Some _, Some _ => false
    | _, _ => true
    end
  else
    match input !! feature with
    | Some _ => false
    | None => true
    end.

(** An encoded feature is unseen when its encoder raises on the value of
    its column; [arg] is what the caller does to the value first. *)
Definition unseen (arg : pyval -> pyval)
    (encoders : gmap string (pyval -> res pyval))
    (input : gmap string pyval) (feature : string) : bool :=
  if encoded_feature feature then
    match encoders !! base_column feature, input !! base_column feature with
    | Some encoder, Some v =>
        match encoder (arg v) with
        | Raise _ => true
        | Ok _ => false
        end
    | _, _ => false
    end
  else false.

(** A schema feature fell back to a default when it is absent or unseen. *)
Definition fell_back (arg : pyval -> pyval)
    (encoders : gmap string (pyval -> res pyval))
    (input : gmap string pyval) (feature : string) : bool :=
  (absent encoders input feature || unseen arg encoders input feature)%bool.

(** What [predict_yield] hands to an encoder: [str(value)]. *)
Definition as_str (py_repr : pyval -> string) (v : pyval) : pyval :=
  VStr (Prediction.py_str py_repr v).

(** The entry of the feature list for one schema feature. *)
Definition feature_entry (arg : pyval -> pyval)
    (encoders : gmap string (pyval -> res pyval))
    (input : gmap string pyval) (feature : string) : pyval :=
  if encoded_feature feature then
    match encoders !! base_column feature, input !! base_column feature with
    | Some encoder, Some v => try_except (encoder (arg v)) (VNum 0)
    | _, _ => VNum 0
    end
  else dict_get input feature (VNum 0).

(** The interval [(lower_bound, upper_bound)] around a prediction, as
    [predict_yield] and [predict_crop_yield] compute it before clamping
    and rounding. *)
Definition interval_around (np_std : list Q -> Q) (m : model_t)
    (features_array : list pyval) (prediction lower_bound upper_bound : Q) : Prop :=
  match estimators_ m with
  | Some estimators =>
      exists predictions,
        for_each (fun estimator => estimator features_array) estimators = Ok predictions /\
        lower_bound = prediction - 1.96 * np_std predictions /\
        upper_bound = prediction + 1.96 * np_std predictions
  | None =>
      lower_bound = prediction - 1.96 * (prediction * 0.1) /\
      upper_bound = prediction + 1.96 * (prediction * 0.1)
  end.

(** The result of [predict_yield] is an error object: the key ['error']
    with a message, and nothing else. *)
Definition error_result (result : gmap string pyval) : Prop :=
  exists message : string, result = {[ "error" := VStr message ]}.

(** The result of [predict_yield] has the full shape of a success. *)
Definition success_result (result : gmap string pyval) : Prop :=
  result !! "error" = None /\
  (exists q, result !! "predicted_yield" = Some (VNum q)) /\
  (exists q, result !! "lower_bound" = Some (VNum q)) /\
  (exists q, result !! "upper_bound" = Some (VNum q)) /\
  result !! "confidence_interval" = Some (VStr "95%") /\
  (exists c, result !! "yield_category" = Some (VStr c)) /\
  (exists n, result !! "model_used" = Some (VStr n)) /\
  (exists d, result !! "engineered_features" = Some (VDict d)) /\
  (exists l, result !! "recommendations" = Some (VList (map VStr l))) /\
  (exists n : nat, result !! "missing_features_count" = Some (VNum (inject_Z (Z.of_nat n)))).

(** A model whose predictions are never negative, and a result whose
    bounds enclose the point estimate from a lower bound that is not
    negative. *)
Definition nonneg_model (m : model_t) : Prop :=
  forall features_array prediction,
    predict m features_array = Ok prediction -> 0 <= prediction.

Definition bounded_result (result : gmap string pyval) : Prop :=
  exists predicted_yield lower_bound upper_bound,
    result !! "predicted_yield" = Some (VNum predicted_yield) /\
    result !! "lower_bound" = Some (VNum lower_bound) /\
    result !! "upper_bound" = Some (VNum upper_bound) /\
    lower_bound <= predicted_yield /\ predicted_yield <= upper_bound /\
    0 <= lower_bound.

(** The keys [engineer_features] reads as numbers, and an input in which
    each of them is a number or missing. *)
Definition numeric_inputs : list string :=
  [ "ndvi_mean"; "ndwi_mean"; "organic_carbon"; "N_available"; "P_available";
    "temperature"; "rainfall"; "humidity"; "K_available" ].

Definition numeric_or_missing (input : gmap string pyval) (k : string) : Prop :=
  match input !! k with
  | None | Some (VNum _) => True
  | Some _ => False
  end.

(** The descending order of [get_crop_recommendations]: [a] may stand
    before [b] when its suitability score is larger, or the scores are
    equal and its expected yield is not smaller. *)
Definition key_ge (a b : CropPredictionApi.CropRecommendation) : Prop :=
  CropPredictionApi.suitability_score b < CropPredictionApi.suitability_score a \/
  (CropPredictionApi.suitability_score a == CropPredictionApi.suitability_score b /\
   CropPredictionApi.expected_yield b <= CropPredictionApi.expected_yield a).

(** The bounding box of central Punjab. *)
Definition central_punjab (latitude longitude : Q) : Prop :=
  30.5 <= latitude /\ latitude <= 31.5 /\ 75.0 <= longitude /\ longitude <= 76.5.

(** The suitability score the specification gives: 0.7, and 0.2 more in
    central Punjab, and 0.1 more from 10 acres on, at most 1. *)
Definition scored_as_specified (latitude longitude farm_size score : Q) : Prop :=
  exists location_bonus size_bonus,
    (central_punjab latitude longitude /\ location_bonus = 0.2 \/
     ~ central_punjab latitude longitude /\ location_bonus = 0) /\
    (10 <= farm_size /\ size_bonus = 0.1 \/ farm_size < 10 /\ size_bonus = 0) /\
    score == Qmin 1 (0.7 + location_bonus + size_bonus).

(** The feature row of the [/api/v1/predict] handler for a request. *)
Definition handler_features (py_hash : string -> Z)
    (request : CropPredictionApi.Request.t) : list Q :=
  CropPredictionApi.predict_features py_hash request
    (CropPredictionApi.estimate_parameters 2025
       (CropPredictionApi.Request.crop request) "Ludhiana"
       (CropPredictionApi.Request.latitude request)
       (CropPredictionApi.Request.longitude request) (Some 2025%Z)).

(** The sowing month estimated for a request. *)
Definition handler_sowing_month (request : CropPredictionApi.Request.t) : Z :=
  CropPredictionApi.Params.sowing_month
    (CropPredictionApi.estimate_parameters 2025
       (CropPredictionApi.Request.crop request) "Ludhiana"
       (CropPredictionApi.Request.latitude request)
       (CropPredictionApi.Request.longitude request) (Some 2025%Z)).

(** The keys [engineer_features] always reads as numbers, and all the
    keys it reads. *)
Definition always_read : list string :=
  [ "ndvi_mean"; "ndwi_mean"; "organic_carbon"; "N_available"; "P_available";
    "temperature"; "rainfall"; "K_available" ].

Definition read_keys : list string :=
  [ "ndvi_mean"; "ndwi_mean"; "organic_carbon"; "N_available"; "P_available";
    "temperature"; "rainfall"; "humidity"; "K_available"; "crop_type_encoded" ].

(** The entry of [predict_multiple_scenarios] for the scenario at
    index [i]: the result of [predict_yield] with its two labels. *)
Definition scenario_entry (np_std : list Q -> Q) (py_repr : pyval -> string)
    (exn_str : exn -> string) (model_package : option model_package)
    (i : nat) (scenario : gmap string pyval) : gmap string pyval :=
  <["scenario_name" :=
      dict_get scenario "name" (VStr ("Scenario " ++ Prediction.str_nat (i + 1)))]>
  (<["scenario_id" := VNum (inject_Z (Z.of_nat (i + 1)))]>
   (Prediction.predict_yield np_std py_repr exn_str model_package scenario)).

(** The four features that the fallback of the FastAPI backend hands to
    the model. *)
Definition fallback_row (py_hash : string -> Z)
    (input_data : FastapiBackend.PredictionInput) : list Q :=
  [ FastapiBackend.longitude input_data;
    FastapiBackend.latitude input_data;
    inject_Z ((py_hash (PyStr.lower (FastapiBackend.crop input_data))) mod 100)%Z;
    FastapiBackend.farm_size_acres input_data ].

(** ** Data for the examples *)

(** The population standard deviation, cut after six decimals: one
    function that can stand for [np.std]. *)
Definition mean (l : list Q) : Q :=
  fold_right Qplus 0 l / inject_Z (Z.of_nat (length l)).

Definition variance (l : list Q) : Q :=
  mean (map (fun x => (x - mean l) * (x - mean l)) l).

Definition std_6dp (l : list Q) : Q :=
  inject_Z (Z.sqrt (Qfloor (variance l * inject_Z (10 ^ 12)))) / inject_Z (10 ^ 6).

(** No value of the examples is formatted, and no exception text read. *)
Definition repr_question (v : pyval) : string := "?".
Definition exn_question (e : exn) : string := "?".

(** An encoder that has seen no label at all. *)
Definition unseen_encoder (v : pyval) : res pyval :=
  Raise (Raised "y contains previously unseen labels").

(** A model without sub-estimators that always predicts [p]. *)
Definition flat_model (p : Q) : model_t :=
  {| predict := fun _ => Ok p; estimators_ := None |}.

(** A model whose [predict] raises. *)
Definition raising_model : model_t :=
  {| predict := fun _ => Raise (Raised "X has 3 features, but the model expects 39");
     estimators_ := None |}.

(** An ensemble of two constant sub-estimators. *)
Definition forest_model (p p1 p2 : Q) : model_t :=
  {| predict := fun _ => Ok p;
     estimators_ := Some [ (fun _ => Ok p1); (fun _ => Ok p2) ] |}.

Definition example_pkg (m : model_t) : model_package :=
  {| model := m;
     feature_names := ["temperature"; "crop_type_encoded"; "soil_moisture"];
     label_encoders := {[ "crop_type" := unseen_encoder ]};
     scaler := None;
     use_scaling := false;
     model_name := "RandomForestRegressor" |}.

Definition example_input : gmap string pyval :=
  <["temperature" := VNum 20]> (<["crop_type" := VStr "Mango"]> ∅).

(** One function that can stand for the salted [hash]. *)
Definition length_hash (s : string) : Z := Z.of_nat (String.length s).

(** The request of the scenario of the specification. *)
Definition example_request : CropPredictionApi.Request.t :=
  {| CropPredictionApi.Request.crop := "wheat";
     CropPredictionApi.Request.acres := 5.0;
     CropPredictionApi.Request.latitude := 31.6340;
     CropPredictionApi.Request.longitude := 75.8573;
     CropPredictionApi.Request.year := None;
     CropPredictionApi.Request.season := None |}.

(** ** Numbers: comparisons and rounding *)

Lemma Qleb_true a b : Qleb a b = true <-> a <= b.
Proof.
  unfold Qleb. destruct (Qlt_le_dec b a) as [Hlt | Hle].
  - split; [discriminate | intros Hab; exfalso; lra].
  - split; auto.
Qed.

Lemma Qleb_false a b : Qleb a b = false <-> b < a.
Proof.
  unfold Qleb. destruct (Qlt_le_dec b a) as [Hlt | Hle].
  - split; auto.
  - split; [discriminate | intros Hab; exfalso; lra].
Qed.

Lemma Qltb_true a b : Qltb a b = true <-> a < b.
Proof.
  unfold Qltb. destruct (Qlt_le_dec a b) as [Hlt | Hle].
  - split; auto.
  - split; [discriminate | intros Hab; exfalso; lra].
Qed.

Lemma Qltb_false a b : Qltb a b = false <-> b <= a.
Proof.
  unfold Qltb. destruct (Qlt_le_dec a b) as [Hlt | Hle].
  - split; [discriminate | intros Hab; exfalso; lra].
  - split; auto.
Qed.

Lemma py_max_0_nonneg x : 0 <= py_max 0 x.
Proof. unfold py_max. destruct (Qlt_le_dec 0 x); lra. Qed.

Lemma py_max_0_le x y : 0 <= y -> x <= y -> py_max 0 x <= y.
Proof. intros Hy Hxy. unfold py_max. destruct (Qlt_le_dec 0 x); lra. Qed.

(** The rounded integer is the floor or the integer above it. *)
Lemma round_half_even_floor x :
  round_half_even x = Qfloor x \/ round_half_even x = (Qfloor x + 1)%Z.
Proof.
  unfold round_half_even.
  destruct (Qcompare _ _); [destruct (Z.even _) |..]; auto.
Qed.

Lemma round_half_even_mono x y :
  x <= y -> (round_half_even x <= round_half_even y)%Z.
Proof.
  intros Hxy.
  pose proof (Qfloor_resp_le _ _ Hxy) as Hfl.
  destruct (Z.eq_dec (Qfloor x) (Qfloor y)) as [Heq | Hne].
  - unfold round_half_even. rewrite <- Heq.
    destruct (Qcompare (x - inject_Z (Qfloor x)) (1 # 2)) eqn:Cx;
      destruct (Qcompare (y - inject_Z (Qfloor x)) (1 # 2)) eqn:Cy;
      try (destruct (Z.even (Qfloor x)); lia); try lia; exfalso;
      repeat match goal with
      | H : Qcompare _ _ = Eq |- _ => apply Qeq_alt in H
      | H : Qcompare _ _ = Lt |- _ => apply Qlt_alt in H
      | H : Qcompare _ _ = Gt |- _ => apply Qgt_alt in H
      end; lra.
  - destruct (round_half_even_floor x) as [Hx | Hx],
             (round_half_even_floor y) as [Hy | Hy]; rewrite Hx, Hy; lia.
Qed.

Lemma round_half_even_nonneg x : 0 <= x -> (0 <= round_half_even x)%Z.
Proof.
  intros Hx. pose proof (Qfloor_resp_le _ _ Hx) as Hfl.
  change (Qfloor 0) with 0%Z in Hfl.
  destruct (round_half_even_floor x) as [Hr | Hr]; rewrite Hr; lia.
Qed.

Lemma pow10_pos n : 0 < pow10 n.
Proof.
  unfold pow10. change 0 with (inject_Z 0). rewrite <- Zlt_Qlt.
  apply Z.pow_pos_nonneg; lia.
Qed.

(** [round(x, n)] never reverses an order. *)
Lemma round_mono x y n : x <= y -> round x n <= round y n.
Proof.
  intros Hxy. unfold round.
  pose proof (pow10_pos n) as Hp.
  assert (Hm : x * pow10 n <= y * pow10 n) by nra.
  apply round_half_even_mono in Hm. rewrite Zle_Qle in Hm.
  unfold Qdiv. apply Qmult_le_compat_r; [exact Hm |].
  apply Qlt_le_weak, Qinv_lt_0_compat, Hp.
Qed.

Lemma round_nonneg x n : 0 <= x -> 0 <= round x n.
Proof.
  intros Hx. unfold round.
  pose proof (pow10_pos n) as Hp.
  assert (Hm : 0 <= x * pow10 n) by nra.
  apply round_half_even_nonneg in Hm. rewrite Zle_Qle in Hm.
  change (inject_Z 0) with 0 in Hm.
  apply Qle_shift_div_l; [exact Hp | lra].
Qed.

Ltac qcmp :=
  repeat match goal with
  | H : Qleb _ _ = true |- _ => apply Qleb_true in H
  | H : Qleb _ _ = false |- _ => apply Qleb_false in H
  | H : Qltb _ _ = true |- _ => apply Qltb_true in H
  | H : Qltb _ _ = false |- _ => apply Qltb_false in H
  end.

(** ** Season detection ([estimate_parameters]) *)

Lemma str_in_In x l : PyStr.str_in x l = true <-> In x l.
Proof.
  unfold PyStr.str_in. rewrite existsb_exists. split.
  - intros (y & Hy & Heq). apply String.eqb_eq in Heq. now subst.
  - intros Hin. exists x. split; [exact Hin | apply String.eqb_refl].
Qed.

Lemma str_in_not_In x l : PyStr.str_in x l = false <-> ~ In x l.
Proof.
  rewrite <- str_in_In. destruct (PyStr.str_in x l); split; intros H;
    try reflexivity; try discriminate; try (intros ?; discriminate).
  exfalso. now apply H.
Qed.

Lemma tables_disjoint s :
  In s CropPredictionApi.rabi_crops -> In s CropPredictionApi.kharif_crops -> False.
Proof. cbn. intuition (subst; discriminate). Qed.

(** C3. For every crop name, position and explicitly given year,
    [estimate_parameters] returns a season among rabi and kharif and a
    sowing month among 6 and 11, and the crop name, looked up in lower
    case in the two membership tables, alone decides them: a rabi crop
    gives (rabi, 11), a kharif crop (kharif, 6), any other name
    (rabi, 11). *)
Theorem estimate_parameters_season
    (now_year : Z) (crop district : string) (latitude longitude : Q) (year : Z) :
  (In (PyStr.lower crop) ["wheat"; "barley"; "mustard"; "potato"; "peas"] ->
     CropPredictionApi.Params.season
       (CropPredictionApi.estimate_parameters now_year crop district latitude longitude (Some year)) = "rabi" /\
     CropPredictionApi.Params.sowing_month
       (CropPredictionApi.estimate_parameters now_year crop district latitude longitude (Some year)) = 11%Z) /\
  (In (PyStr.lower crop) ["rice"; "corn"; "maize"; "cotton"; "soybean"; "sugarcane"] ->
     CropPredictionApi.Params.season
       (CropPredictionApi.estimate_parameters now_year crop district latitude longitude (Some year)) = "kharif" /\
     CropPredictionApi.Params.sowing_month
       (CropPredictionApi.estimate_parameters now_year crop district latitude longitude (Some year)) = 6%Z) /\
  (~ In (PyStr.lower crop) ["wheat"; "barley"; "mustard"; "potato"; "peas"] ->
   ~ In (PyStr.lower crop) ["rice"; "corn"; "maize"; "cotton"; "soybean"; "sugarcane"] ->
     CropPredictionApi.Params.season
       (CropPredictionApi.estimate_parameters now_year crop district latitude longitude (Some year)) = "rabi" /\
     CropPredictionApi.Params.sowing_month
       (CropPredictionApi.estimate_parameters now_year crop district latitude longitude (Some year)) = 11%Z) /\
  (CropPredictionApi.Params.season
     (CropPredictionApi.estimate_parameters now_year crop district latitude longitude (Some year)) = "rabi" /\
   CropPredictionApi.Params.sowing_month
     (CropPredictionApi.estimate_parameters now_year crop district latitude longitude (Some year)) = 11%Z
   \/
   CropPredictionApi.Params.season
     (CropPredictionApi.estimate_parameters now_year crop district latitude longitude (Some year)) = "kharif" /\
   CropPredictionApi.Params.sowing_month
     (CropPredictionApi.estimate_parameters now_year crop district latitude longitude (Some year)) = 6%Z) /\
  (forall now_year' district' latitude' longitude' year',
     CropPredictionApi.Params.season
       (CropPredictionApi.estimate_parameters now_year' crop district' latitude' longitude' (Some year')) =
     CropPredictionApi.Params.season
       (CropPredictionApi.estimate_parameters now_year crop district latitude longitude (Some year)) /\
     CropPredictionApi.Params.sowing_month
       (CropPredictionApi.estimate_parameters now_year' crop district' latitude' longitude' (Some year')) =
     CropPredictionApi.Params.sowing_month
       (CropPredictionApi.estimate_parameters now_year crop district latitude longitude (Some year))).
Proof.
  unfold CropPredictionApi.estimate_parameters.
  change ["wheat"; "barley"; "mustard"; "potato"; "peas"]
    with CropPredictionApi.rabi_crops.
  change ["rice"; "corn"; "maize"; "cotton"; "soybean"; "sugarcane"]
    with CropPredictionApi.kharif_crops.
  destruct (PyStr.str_in (PyStr.lower crop) CropPredictionApi.rabi_crops) eqn:Hrabi;
    [| destruct (PyStr.str_in (PyStr.lower crop) CropPredictionApi.kharif_crops) eqn:Hkharif ];
    cbn -[CropPredictionApi.rabi_crops CropPredictionApi.kharif_crops].
  all: rewrite ?str_in_In, ?str_in_not_In in *.
  all: pose proof (tables_disjoint (PyStr.lower crop)) as Hdisj.
  all: (split; [| split; [| split; [| split ] ] ]); intros;
    first [ split; reflexivity
          | left; split; reflexivity
          | right; split; reflexivity
          | exfalso; tauto ].
Qed.

(** ** Yield categories ([_categorize_yield]) *)

(** C4. For a fixed crop type the category never goes down when the yield
    goes up, in the order Low < Medium < High; wheat is High from 4500 and
    Medium from 3500, rice from 6000 and 5000, cotton from 500 and 350,
    and any other crop type is "Unknown" at every yield. *)
Theorem categorize_yield_monotone
    (crop_type : string) (yield_val1 yield_val2 : Q) :
  yield_val1 <= yield_val2 ->
  exists c1 c2,
    Prediction._categorize_yield yield_val1 (VStr crop_type) = Ok c1 /\
    Prediction._categorize_yield yield_val2 (VStr crop_type) = Ok c2 /\
    (if has_thresholds crop_type then category_le c1 c2
     else c1 = "Unknown" /\ c2 = "Unknown") /\
    (PyStr.lower crop_type = "wheat" ->
       by_thresholds 4500 3500 yield_val1 c1 /\ by_thresholds 4500 3500 yield_val2 c2) /\
    (PyStr.lower crop_type = "rice" ->
       by_thresholds 6000 5000 yield_val1 c1 /\ by_thresholds 6000 5000 yield_val2 c2) /\
    (PyStr.lower crop_type = "cotton" ->
       by_thresholds 500 350 yield_val1 c1 /\ by_thresholds 500 350 yield_val2 c2).
Proof.
  intros Hle.
  unfold Prediction._categorize_yield, has_thresholds, PyStr.str_in, by_thresholds.
  cbn [val_lower mbind res_bind existsb].
  generalize (PyStr.lower crop_type). intros c.
  destruct (String.eqb c "wheat") eqn:Hw;
    [| destruct (String.eqb c "rice") eqn:Hr;
       [| destruct (String.eqb c "cotton") eqn:Hc ] ];
    cbn [orb];
    repeat match goal with
    | |- context [Qleb ?a ?b] => destruct (Qleb a b) eqn:?
    end;
    qcmp; eexists _, _;
    (split; [reflexivity |]); (split; [reflexivity |]);
    (split; [first [ cbv; lia | exfalso; lra | now split ] |]);
    repeat match goal with
    | H : String.eqb _ _ = true |- _ => apply String.eqb_eq in H; subst
    end;
    repeat split; intros; subst;
    first [ reflexivity | discriminate | exfalso; lra ].
Qed.

(** ** The feature list *)

Section FeatureList.

Variable py_repr : pyval -> string.
Variable encoders : gmap string (pyval -> res pyval).
Variable input : gmap string pyval.

Local Abbreviation as_str := (as_str py_repr).

Lemma prepare_features_entries names features :
  PredictionFunction.prepare_features encoders input names features =
  (features ++ map (feature_entry id encoders input) names)%list.
Proof.
  revert features. induction names as [| feature names IH]; intros features.
  - cbn. now rewrite app_nil_r.
  - cbn [PredictionFunction.prepare_features map].
    set (col := PyStr.replace feature "_encoded" "").
    destruct (PyStr.endswith feature "_encoded") eqn:Hends;
      [ destruct (encoders !! col) as [encoder |] eqn:Henc,
                 (input !! col) as [v |] eqn:Hinp |];
      rewrite IH; unfold list_append; rewrite <- app_assoc; cbn [app];
      f_equal; f_equal;
      unfold feature_entry, encoded_feature, base_column; fold col;
      rewrite Hends, ?Henc, ?Hinp; reflexivity.
Qed.

Lemma assemble_features_entries names features missing_features :
  Prediction.assemble_features py_repr encoders input names features missing_features =
  ((features ++ map (feature_entry as_str encoders input) names)%list,
   (missing_features ++ List.filter (absent encoders input) names)%list).
Proof.
  revert features missing_features.
  induction names as [| feature names IH]; intros features missing_features.
  - cbn. now rewrite !app_nil_r.
  - cbn [Prediction.assemble_features map List.filter].
    set (col := PyStr.replace feature "_encoded" "").
    assert (Habs : absent encoders input feature =
                   if PyStr.endswith feature "_encoded" then
                     match encoders !! col, input !! col with
                     | Some _, Some _ => false
                     | _, _ => true
                     end
                   else match input !! feature with Some _ => false | None => true end)
      by reflexivity.
    rewrite Habs. clear Habs.
    destruct (PyStr.endswith feature "_encoded") eqn:Hends;
      [ destruct (encoders !! col) as [encoder |] eqn:Henc,
                 (input !! col) as [v |] eqn:Hinp
      | destruct (input !! feature) as [v |] eqn:Hinp ];
      rewrite IH; unfold list_append; rewrite <- ?app_assoc; cbn [app];
      f_equal; f_equal; f_equal;
      unfold feature_entry, encoded_feature, base_column, dict_get; fold col;
      rewrite Hends, ?Henc, ?Hinp; reflexivity.
Qed.

Lemma feature_entry_default arg feature :
  fell_back arg encoders input feature = true ->
  feature_entry arg encoders input feature = VNum 0.
Proof.
  unfold fell_back, absent, unseen, feature_entry, dict_get, try_except.
  set (col := base_column feature).
  destruct (encoded_feature feature);
    [ destruct (encoders !! col) as [encoder |], (input !! col) as [v |];
      [destruct (encoder (arg v)) |..]
    | destruct (input !! feature) ];
    cbn; intros H; try reflexivity; discriminate.
Qed.

(** C1. The feature list that [predict_crop_yield] and [predict_yield]
    build has exactly the length of [feature_names], whatever the input
    lacks; a feature that is absent or unmatched holds the default 0 at
    its position of the schema. *)
Theorem feature_list_length (names : list string) :
  length (PredictionFunction.prepare_features encoders input names []) = length names /\
  length (fst (Prediction.assemble_features py_repr encoders input names [] []))
    = length names /\
  (forall (i : nat) (feature : string),
     names !! i = Some feature ->
     (fell_back id encoders input feature = true ->
      PredictionFunction.prepare_features encoders input names [] !! i
        = Some (VNum 0)) /\
     (fell_back as_str encoders input feature = true ->
      fst (Prediction.assemble_features py_repr encoders input names [] []) !! i
        = Some (VNum 0))).
Proof.
  rewrite prepare_features_entries, assemble_features_entries. cbn [fst app].
  rewrite !length_map. repeat split.
  - intros Hdef. rewrite list_lookup_fmap, H. cbn.
    now rewrite feature_entry_default.
  - intros Hdef. rewrite list_lookup_fmap, H. cbn.
    now rewrite feature_entry_default.
Qed.

End FeatureList.

(** ** [predict_yield] *)

Lemma for_each_length {A B} (f : A -> res B) (l : list A) (ys : list B) :
  for_each f l = Ok ys -> length ys = length l.
Proof.
  revert ys. induction l as [| x l IH]; intros ys; cbn.
  - intros [= <-]. reflexivity.
  - unfold mbind, res_bind.
    destruct (f x) as [y |]; [| discriminate].
    destruct (for_each f l) as [ys' |]; [| discriminate].
    intros [= <-]. cbn. f_equal. now apply IH.
Qed.

(** Case analysis on the binds of a computation that returned. *)
Ltac bind_ok H :=
  repeat match type of H with
  | match ?m with Ok _ => _ | Raise _ => _ end = Ok _ =>
      let E := fresh "E" in destruct m eqn:E; [| discriminate H]
  | (let (_, _) := ?p in _) = Ok _ =>
      let E := fresh "E" in destruct p eqn:E
  end.

Section PredictYield.

Variable np_std : list Q -> Q.
Variable py_repr : pyval -> string.

(** What a returning [try] block of [predict_yield] went through. *)
Lemma predict_yield_body_inv (pkg : model_package)
    (input_data result : gmap string pyval) :
  Prediction.predict_yield_body np_std py_repr pkg input_data = Ok result ->
  exists complete_input features_array prediction lower_bound upper_bound
         yield_category engineered recommendations,
    Prediction.engineer_features input_data = Ok complete_input /\
    predict (model pkg) features_array = Ok prediction /\
    interval_around np_std (model pkg) features_array prediction lower_bound upper_bound /\
    Prediction._categorize_yield prediction
      (dict_get input_data "crop_type" (VStr "Unknown")) = Ok yield_category /\
    result =
      <["missing_features_count" :=
          VNum (inject_Z (Z.of_nat (length
            (List.filter (absent (label_encoders pkg) complete_input)
                         (feature_names pkg)))))]>
      (<["recommendations" := VList (map VStr recommendations)]>
      (<["engineered_features" := VDict engineered]>
      (<["model_used" := VStr (model_name pkg)]>
      (<["yield_category" := VStr yield_category]>
      (<["confidence_interval" := VStr "95%"]>
      (<["upper_bound" := VNum (round upper_bound 1)]>
      (<["lower_bound" := VNum (round (py_max 0 lower_bound) 1)]>
      (<["predicted_yield" := VNum (round prediction 1)]> ∅)))))))).
Proof.
  unfold Prediction.predict_yield_body. intros H.
  unfold mbind, res_bind in H.
  destruct (Prediction.engineer_features input_data) as [complete_input |] eqn:Heng;
    [| discriminate H].
  rewrite assemble_features_entries in H. cbn [app] in H.
  bind_ok H.
  injection H as <-.
  match goal with
  | Hp : predict (model pkg) ?fa = Ok ?p, Hi : _ = Ok (?lo, ?up),
    Hc : Prediction._categorize_yield _ _ = Ok ?c,
    Hr : Prediction._get_recommendations _ _ = Ok ?r |- _ =>
      exists complete_input, fa, p, lo, up, c; eexists _, r;
      split; [reflexivity |]; split; [exact Hp |];
      split; [| split; [exact Hc | reflexivity] ];
      unfold interval_around; destruct (estimators_ (model pkg));
      [ destruct (for_each _ _) as [predictions |] eqn:Hfe; [| discriminate Hi];
        injection Hi as <- <-; exists predictions; auto
      | injection Hi as <- <-; auto ]
  end.
Qed.

End PredictYield.

Ltac lookup_key :=
  repeat first [ rewrite lookup_insert_eq
               | rewrite lookup_insert_ne by discriminate ];
  rewrite ?lookup_empty.

Section PredictYieldResult.

Variable np_std : list Q -> Q.
Variable py_repr : pyval -> string.
Variable exn_str : exn -> string.

Lemma predict_yield_body_success pkg input_data result :
  Prediction.predict_yield_body np_std py_repr pkg input_data = Ok result ->
  success_result result.
Proof.
  intros H. apply predict_yield_body_inv in H.
  destruct H as (ci & fa & p & lo & up & c & eng & recs & _ & _ & _ & _ & ->).
  unfold success_result. repeat split; lookup_key; eauto.
Qed.

Lemma error_not_success result : error_result result -> ~ success_result result.
Proof.
  intros [message ->] [Herr _]. rewrite lookup_singleton_eq in Herr. discriminate.
Qed.

(** C7. [predict_yield] returns a dictionary on every input and raises
    nothing: without a loaded model package, and whenever anything in
    the [try] block raises (feature engineering, assembly, scaling, the
    model), the result is an error object, the key ['error'] with a
    message; every other result has the full shape of a success, and no
    result is both. *)
Theorem predict_yield_never_raises
    (model_package : option model_package) (input_data : gmap string pyval) :
  (model_package = None ->
     Prediction.predict_yield np_std py_repr exn_str model_package input_data
       = {[ "error" := VStr "Model not loaded" ]}) /\
  (forall pkg e,
     model_package = Some pkg ->
     Prediction.predict_yield_body np_std py_repr pkg input_data = Raise e ->
     Prediction.predict_yield np_std py_repr exn_str model_package input_data
       = {[ "error" := VStr ("Prediction failed: " ++ exn_str e) ]}) /\
  (forall pkg e,
     model_package = Some pkg ->
     Prediction.engineer_features input_data = Raise e ->
     Prediction.predict_yield np_std py_repr exn_str model_package input_data
       = {[ "error" := VStr ("Prediction failed: " ++ exn_str e) ]}) /\
  (error_result
     (Prediction.predict_yield np_std py_repr exn_str model_package input_data) \/
   success_result
     (Prediction.predict_yield np_std py_repr exn_str model_package input_data)) /\
  ~ (error_result
       (Prediction.predict_yield np_std py_repr exn_str model_package input_data) /\
     success_result
       (Prediction.predict_yield np_std py_repr exn_str model_package input_data)).
Proof.
  split; [| split; [| split; [| split ] ] ].
  - intros ->. reflexivity.
  - intros pkg e -> Hbody. cbn. now rewrite Hbody.
  - intros pkg e -> Heng. cbn.
    unfold Prediction.predict_yield_body. now rewrite Heng.
  - destruct model_package as [pkg |]; cbn.
    + destruct (Prediction.predict_yield_body np_std py_repr pkg input_data)
        as [result | e] eqn:Hbody.
      * right. eapply predict_yield_body_success, Hbody.
      * left. eexists. reflexivity.
    + left. eexists. reflexivity.
  - intros [Herr Hok]. exact (error_not_success _ Herr Hok).
Qed.

(** An exception of the model, and the [KeyError] of
    [_get_recommendations] for wheat without a temperature, both end as
    error objects. *)
Example raising_model_error_result :
  Prediction.predict_yield np_std py_repr exn_str
    (Some (example_pkg raising_model)) example_input
  = {[ "error" := VStr ("Prediction failed: " ++
         exn_str (Raised "X has 3 features, but the model expects 39")) ]}.
Proof. reflexivity. Qed.

Example wheat_without_temperature_error_result :
  Prediction.predict_yield np_std py_repr exn_str
    (Some (example_pkg (flat_model 4000))) {[ "crop_type" := VStr "wheat" ]}
  = {[ "error" := VStr ("Prediction failed: " ++ exn_str (KeyError "temperature")) ]}.
Proof. reflexivity. Qed.

(** C6, as the code has it. When the encoder of an encoded schema
    feature raises on the value of its column, [predict_yield] puts 0 at
    the position of the feature and goes on, and does not count it:
    [missing_features_count] is the number of the schema features that
    are absent (no encoder or no value for the column of an encoded
    feature, no value for another feature). *)
Theorem missing_features_count_absent pkg input_data result :
  Prediction.predict_yield_body np_std py_repr pkg input_data = Ok result ->
  exists complete_input,
    Prediction.engineer_features input_data = Ok complete_input /\
    (forall (i : nat) (feature : string),
       feature_names pkg !! i = Some feature ->
       unseen (as_str py_repr) (label_encoders pkg) complete_input feature = true ->
       encoded_feature feature = true /\
       fst (Prediction.assemble_features py_repr (label_encoders pkg)
              complete_input (feature_names pkg) [] []) !! i = Some (VNum 0) /\
       ~ In feature
           (snd (Prediction.assemble_features py_repr (label_encoders pkg)
                   complete_input (feature_names pkg) [] []))) /\
    result !! "missing_features_count" =
      Some (VNum (inject_Z (Z.of_nat (length
        (List.filter (absent (label_encoders pkg) complete_input)
                     (feature_names pkg)))))) /\
    length (snd (Prediction.assemble_features py_repr (label_encoders pkg)
                   complete_input (feature_names pkg) [] []))
      = length (List.filter (absent (label_encoders pkg) complete_input)
                            (feature_names pkg)).
Proof.
  intros H. apply predict_yield_body_inv in H.
  destruct H as (ci & fa & p & lo & up & c & eng & recs & Heng & _ & _ & _ & ->).
  exists ci. split; [exact Heng |].
  rewrite assemble_features_entries. cbn [fst snd app].
  split; [| split; [lookup_key; reflexivity | reflexivity] ].
  intros i feature Hi Hunseen. split; [| split].
  - unfold unseen in Hunseen. destruct (encoded_feature feature); [reflexivity | discriminate].
  - rewrite list_lookup_fmap, Hi. cbn. f_equal.
    apply feature_entry_default. unfold fell_back. rewrite Hunseen.
    apply orb_true_r.
  - rewrite filter_In. intros [_ Habs].
    unfold unseen in Hunseen. unfold absent in Habs.
    destruct (encoded_feature feature); [| discriminate].
    destruct (label_encoders pkg !! base_column feature);
      [ destruct (ci !! base_column feature) |]; discriminate.
Qed.

End PredictYieldResult.

(** A computation that returned, returned what [try_except] takes
    from it. *)
Lemma is_ok_try_except {A} (c : res A) (default : A) :
  is_ok c = true -> c = Ok (try_except c default).
Proof. destruct c; [reflexivity | discriminate]. Qed.

Lemma missing_features_count_absent_witness :
  exists complete_input,
    Prediction.engineer_features example_input = Ok complete_input /\
    (forall (i : nat) (feature : string),
       feature_names (example_pkg (flat_model 4000)) !! i = Some feature ->
       unseen (as_str repr_question)
         (label_encoders (example_pkg (flat_model 4000))) complete_input feature = true ->
       encoded_feature feature = true /\
       fst (Prediction.assemble_features repr_question
              (label_encoders (example_pkg (flat_model 4000)))
              complete_input (feature_names (example_pkg (flat_model 4000))) [] []) !! i
         = Some (VNum 0) /\
       ~ In feature
           (snd (Prediction.assemble_features repr_question
                   (label_encoders (example_pkg (flat_model 4000)))
                   complete_input (feature_names (example_pkg (flat_model 4000))) [] []))) /\
    try_except
      (Prediction.predict_yield_body std_6dp repr_question
         (example_pkg (flat_model 4000)) example_input) ∅
      !! "missing_features_count" =
      Some (VNum (inject_Z (Z.of_nat (length
        (List.filter (absent (label_encoders (example_pkg (flat_model 4000))) complete_input)
                     (feature_names (example_pkg (flat_model 4000)))))))) /\
    length (snd (Prediction.assemble_features repr_question
                   (label_encoders (example_pkg (flat_model 4000)))
                   complete_input (feature_names (example_pkg (flat_model 4000))) [] []))
      = length (List.filter (absent (label_encoders (example_pkg (flat_model 4000))) complete_input)
                            (feature_names (example_pkg (flat_model 4000)))).
Proof.
  apply (missing_features_count_absent std_6dp repr_question
           (example_pkg (flat_model 4000)) example_input).
  apply is_ok_try_except. vm_compute. reflexivity.
Defined.

(** C6 as stated fails: of the three schema features of the example, the
    encoded one is unseen and one other is absent, so two fell back to
    the default, and [missing_features_count] is 1. *)
Lemma missing_features_count_skips_unseen :
  is_ok (Prediction.engineer_features example_input) = true /\
  Prediction.predict_yield std_6dp repr_question exn_question
    (Some (example_pkg (flat_model 4000))) example_input
    !! "missing_features_count" = Some (VNum 1) /\
  length (List.filter
            (fell_back (as_str repr_question)
               (label_encoders (example_pkg (flat_model 4000)))
               (try_except (Prediction.engineer_features example_input) ∅))
            (feature_names (example_pkg (flat_model 4000)))) = 2%nat /\
  ~ 1 == inject_Z (Z.of_nat (length (List.filter
            (fell_back (as_str repr_question)
               (label_encoders (example_pkg (flat_model 4000)))
               (try_except (Prediction.engineer_features example_input) ∅))
            (feature_names (example_pkg (flat_model 4000)))))).
Proof.
  split; [vm_compute; reflexivity |].
  split; [vm_compute; reflexivity |].
  split; [vm_compute; reflexivity |].
  vm_compute. discriminate.
Qed.

(** ** Prediction intervals *)

Lemma std_6dp_nonneg (l : list Q) : l <> [] -> 0 <= std_6dp l.
Proof.
  intros _. unfold std_6dp.
  apply Qle_shift_div_l; [reflexivity |].
  apply Qle_trans with (inject_Z 0); [discriminate |].
  rewrite <- Zle_Qle. apply Z.sqrt_nonneg.
Qed.

Section Bounds.

Variable np_std : list Q -> Q.

(** The standard deviation of at least one number is not negative. *)
Hypothesis np_std_nonneg : forall l : list Q, l <> [] -> 0 <= np_std l.

Lemma interval_around_encloses m features_array prediction lower_bound upper_bound :
  estimators_ m <> Some [] ->
  0 <= prediction ->
  interval_around np_std m features_array prediction lower_bound upper_bound ->
  lower_bound <= prediction /\ prediction <= upper_bound.
Proof.
  intros Hfit Hp. unfold interval_around.
  destruct (estimators_ m) as [estimators |].
  - intros (predictions & Hfe & -> & ->).
    assert (Hne : predictions <> []).
    { intros ->. apply for_each_length in Hfe.
      destruct estimators; [now apply Hfit | discriminate Hfe]. }
    pose proof (np_std_nonneg predictions Hne). lra.
  - intros [-> ->]. lra.
Qed.

Lemma rounded_bounds prediction lower_bound upper_bound :
  0 <= prediction ->
  lower_bound <= prediction -> prediction <= upper_bound ->
  round (py_max 0 lower_bound) 1 <= round prediction 1 /\
  round prediction 1 <= round upper_bound 1 /\
  0 <= round (py_max 0 lower_bound) 1.
Proof.
  intros Hp Hlo Hup. repeat split.
  - apply round_mono, py_max_0_le; assumption.
  - apply round_mono, Hup.
  - apply round_nonneg, py_max_0_nonneg.
Qed.

Lemma predict_crop_yield_inv input_data model_pkg result :
  PredictionFunction.predict_crop_yield np_std input_data model_pkg = Ok result ->
  exists features_array prediction lower_bound upper_bound,
    predict (model model_pkg) features_array = Ok prediction /\
    interval_around np_std (model model_pkg) features_array prediction
      lower_bound upper_bound /\
    result =
      <["model_used" := VStr (model_name model_pkg)]>
      (<["confidence_interval" := VStr "95%"]>
      (<["upper_bound" := VNum (round upper_bound 1)]>
      (<["lower_bound" := VNum (round (py_max 0 lower_bound) 1)]>
      (<["predicted_yield" := VNum (round prediction 1)]> ∅)))).
Proof.
  unfold PredictionFunction.predict_crop_yield. intros H.
  unfold mbind, res_bind in H.
  bind_ok H.
  injection H as <-.
  match goal with
  | Hp : predict (model model_pkg) ?fa = Ok ?p, Hi : _ = Ok (?lo, ?up) |- _ =>
      exists fa, p, lo, up;
      split; [exact Hp |]; split; [| reflexivity];
      unfold interval_around; destruct (estimators_ (model model_pkg));
      [ destruct (for_each _ _) as [predictions |] eqn:Hfe; [| discriminate Hi];
        injection Hi as <- <-; exists predictions; auto
      | injection Hi as <- <-; auto ]
  end.
Qed.

(** C2, as the code has it. When the model does not predict a negative
    yield (and an ensemble has at least one sub-estimator), the result
    of [predict_crop_yield] and of [predict_yield], ensemble or not, has
    lower_bound <= predicted_yield <= upper_bound and 0 <= lower_bound,
    and so has the interval of 15 per cent either side in the
    [/api/v1/predict] handler; in the two prediction functions the
    lower bound is not negative whatever the model predicts. *)
Theorem prediction_bounds :
  (forall input_data model_pkg result,
     nonneg_model (model model_pkg) ->
     estimators_ (model model_pkg) <> Some [] ->
     PredictionFunction.predict_crop_yield np_std input_data model_pkg = Ok result ->
     bounded_result result) /\
  (forall py_repr pkg input_data result,
     nonneg_model (model pkg) ->
     estimators_ (model pkg) <> Some [] ->
     Prediction.predict_yield_body np_std py_repr pkg input_data = Ok result ->
     bounded_result result) /\
  (forall py_hash model_predict request response,
     (forall features prediction,
        model_predict features = Ok prediction -> 0 <= prediction) ->
     CropPredictionApi.predict_crop_yield_body py_hash (Some model_predict) request
       = Ok response ->
     CropPredictionApi.yield_range_minimum response
       <= CropPredictionApi.predicted_yield response /\
     CropPredictionApi.predicted_yield response
       <= CropPredictionApi.yield_range_maximum response /\
     0 <= CropPredictionApi.yield_range_minimum response) /\
  (forall input_data model_pkg result,
     PredictionFunction.predict_crop_yield np_std input_data model_pkg = Ok result ->
     exists lower_bound,
       result !! "lower_bound" = Some (VNum lower_bound) /\ 0 <= lower_bound) /\
  (forall py_repr pkg input_data result,
     Prediction.predict_yield_body np_std py_repr pkg input_data = Ok result ->
     exists lower_bound,
       result !! "lower_bound" = Some (VNum lower_bound) /\ 0 <= lower_bound).
Proof.
  split; [| split; [| split; [| split ] ] ].
  - intros input_data model_pkg result Hmodel Hfit H.
    apply predict_crop_yield_inv in H.
    destruct H as (fa & p & lo & up & Hp & Hint & ->).
    apply Hmodel in Hp.
    destruct (interval_around_encloses _ _ _ _ _ Hfit Hp Hint) as [Hlo Hup].
    destruct (rounded_bounds _ _ _ Hp Hlo Hup) as (H1 & H2 & H3).
    unfold bounded_result. eexists _, _, _.
    repeat split; [lookup_key; reflexivity .. | exact H1 | exact H2 | exact H3].
  - intros py_repr pkg input_data result Hmodel Hfit H.
    apply predict_yield_body_inv in H.
    destruct H as (ci & fa & p & lo & up & c & eng & recs & _ & Hp & Hint & _ & ->).
    apply Hmodel in Hp.
    destruct (interval_around_encloses _ _ _ _ _ Hfit Hp Hint) as [Hlo Hup].
    destruct (rounded_bounds _ _ _ Hp Hlo Hup) as (H1 & H2 & H3).
    unfold bounded_result. eexists _, _, _.
    repeat split; [lookup_key; reflexivity .. | exact H1 | exact H2 | exact H3].
  - intros py_hash model_predict request response Hmodel H.
    unfold CropPredictionApi.predict_crop_yield_body in H.
    unfold mbind, res_bind in H. bind_ok H.
    injection H as <-. cbn.
    match goal with Hp : model_predict _ = Ok ?p |- _ => apply Hmodel in Hp end.
    repeat split.
    + apply round_mono. lra.
    + apply round_mono. lra.
    + apply round_nonneg. lra.
  - intros input_data model_pkg result H.
    apply predict_crop_yield_inv in H.
    destruct H as (fa & p & lo & up & _ & _ & ->).
    eexists. split; [lookup_key; reflexivity |].
    apply round_nonneg, py_max_0_nonneg.
  - intros py_repr pkg input_data result H.
    apply predict_yield_body_inv in H.
    destruct H as (ci & fa & p & lo & up & c & eng & recs & _ & _ & _ & _ & ->).
    eexists. split; [lookup_key; reflexivity |].
    apply round_nonneg, py_max_0_nonneg.
Qed.

End Bounds.

Lemma prediction_bounds_witness :
  bounded_result
    (try_except
       (PredictionFunction.predict_crop_yield std_6dp example_input
          (example_pkg (forest_model 4000 3900 4100))) ∅) /\
  bounded_result
    (try_except
       (Prediction.predict_yield_body std_6dp repr_question
          (example_pkg (flat_model 4000)) example_input) ∅) /\
  (exists response,
     CropPredictionApi.predict_crop_yield_body length_hash
       (Some (fun _ => Ok 1800)) example_request = Ok response /\
     CropPredictionApi.yield_range_minimum response
       <= CropPredictionApi.predicted_yield response /\
     CropPredictionApi.predicted_yield response
       <= CropPredictionApi.yield_range_maximum response /\
     0 <= CropPredictionApi.yield_range_minimum response).
Proof.
  destruct (prediction_bounds std_6dp std_6dp_nonneg) as (H1 & H2 & H3 & _).
  split; [| split].
  3: { eexists. split; [reflexivity |].
       apply (H3 length_hash (fun _ => Ok 1800) example_request).
       - intros fa p [= <-]. discriminate.
       - reflexivity. }
  - apply (H1 example_input (example_pkg (forest_model 4000 3900 4100))).
    + intros fa p [= <-]. discriminate.
    + discriminate.
    + apply is_ok_try_except. vm_compute. reflexivity.
  - apply (H2 repr_question (example_pkg (flat_model 4000)) example_input).
    + intros fa p [= <-]. discriminate.
    + discriminate.
    + apply is_ok_try_except. vm_compute. reflexivity.
Defined.

(** C2 as stated fails for a model output below zero, which is finite:
    with the prediction -100 and no sub-estimators the lower bound is
    clamped to 0 and lies above the predicted yield -100, and in the
    handler the lower end of the range is -85, below zero and above the
    predicted yield, while the upper end -115 is below it. *)
Lemma negative_prediction_outside_bounds :
  (is_ok (PredictionFunction.predict_crop_yield std_6dp example_input
            (example_pkg (flat_model (-100)))) = true /\
   exists predicted_yield lower_bound upper_bound,
     try_except (PredictionFunction.predict_crop_yield std_6dp example_input
                   (example_pkg (flat_model (-100)))) ∅ !! "predicted_yield"
       = Some (VNum predicted_yield) /\
     try_except (PredictionFunction.predict_crop_yield std_6dp example_input
                   (example_pkg (flat_model (-100)))) ∅ !! "lower_bound"
       = Some (VNum lower_bound) /\
     try_except (PredictionFunction.predict_crop_yield std_6dp example_input
                   (example_pkg (flat_model (-100)))) ∅ !! "upper_bound"
       = Some (VNum upper_bound) /\
     predicted_yield == -100 /\ lower_bound == 0 /\
     ~ lower_bound <= predicted_yield /\
     ~ predicted_yield <= upper_bound) /\
  (exists response,
     CropPredictionApi.predict_crop_yield_body length_hash
       (Some (fun _ => Ok (-100))) example_request = Ok response /\
     CropPredictionApi.predicted_yield response == -100 /\
     CropPredictionApi.yield_range_minimum response == -85 /\
     CropPredictionApi.yield_range_maximum response == -115 /\
     ~ 0 <= CropPredictionApi.yield_range_minimum response /\
     ~ CropPredictionApi.yield_range_minimum response
         <= CropPredictionApi.predicted_yield response /\
     ~ CropPredictionApi.predicted_yield response
         <= CropPredictionApi.yield_range_maximum response).
Proof.
  split.
  - split; [vm_compute; reflexivity |].
    exists (round (-100) 1), (round (py_max 0 (-100 - 1.96 * (-100 * 0.1))) 1),
           (round (-100 + 1.96 * (-100 * 0.1)) 1).
    split; [vm_compute; reflexivity |].
    split; [vm_compute; reflexivity |].
    split; [vm_compute; reflexivity |].
    split; [reflexivity |]. split; [reflexivity |].
    split; vm_compute; intros H; now apply H.
  - eexists. split; [reflexivity |]. cbn.
    split; [reflexivity |]. split; [reflexivity |]. split; [reflexivity |].
    repeat split; vm_compute; intros H; now apply H.
Qed.

(** ** [engineer_features] *)

Lemma as_num_dict_get input k default :
  numeric_or_missing input k ->
  exists q, dict_get input k (VNum default) = VNum q.
Proof.
  unfold numeric_or_missing, dict_get.
  destruct (input !! k) as [[| q | | |] |]; intros H; try contradiction; eauto.
Qed.

(** [engineer_features] returns on every input whose numeric keys hold
    numbers or are missing, unless P_available or K_available is -1. *)
Lemma engineer_features_returns (input_data : gmap string pyval) :
  (forall k, In k numeric_inputs -> numeric_or_missing input_data k) ->
  (forall p, input_data !! "P_available" = Some (VNum p) -> ~ p + 1 == 0) ->
  (forall k, input_data !! "K_available" = Some (VNum k) -> ~ k + 1 == 0) ->
  exists engineered, Prediction.engineer_features input_data = Ok engineered.
Proof.
  intros Hnum Hp Hk.
  assert (Hget : forall k default, In k numeric_inputs ->
            exists q, dict_get input_data k (VNum default) = VNum q)
    by (intros; apply as_num_dict_get; auto).
  unfold Prediction.engineer_features.
  destruct (Hget "ndvi_mean" 0.6) as [ndvi ->]; [cbn; tauto |].
  destruct (Hget "ndwi_mean" 0.3) as [ndwi ->]; [cbn; tauto |].
  destruct (Hget "organic_carbon" 0.5) as [oc ->]; [cbn; tauto |].
  destruct (Hget "N_available" 180) as [n_avail ->]; [cbn; tauto |].
  destruct (Hget "P_available" 15) as [p_avail Hpa]; [cbn; tauto |].
  destruct (Hget "temperature" 25) as [temp ->]; [cbn; tauto |].
  destruct (Hget "rainfall" 0) as [rainfall ->]; [cbn; tauto |].
  destruct (Hget "humidity" 70) as [humidity ->]; [cbn; tauto |].
  destruct (Hget "K_available" 250) as [k_avail Hka]; [cbn; tauto |].
  rewrite Hpa, Hka. cbn [as_num mbind res_bind].
  assert (Hp1 : Qeq_bool (p_avail + 1) 0 = false).
  { apply not_true_is_false. intros Heq. apply Qeq_bool_iff in Heq.
    unfold dict_get in Hpa. destruct (input_data !! "P_available") as [v |] eqn:E.
    - subst v. now apply (Hp p_avail).
    - injection Hpa as <-. discriminate Heq. }
  assert (Hk1 : Qeq_bool (k_avail + 1) 0 = false).
  { apply not_true_is_false. intros Heq. apply Qeq_bool_iff in Heq.
    unfold dict_get in Hka. destruct (input_data !! "K_available") as [v |] eqn:E.
    - subst v. now apply (Hk k_avail).
    - injection Hka as <-. discriminate Heq. }
  unfold py_div. rewrite Hp1, Hk1.
  destruct (Qltb rainfall 1); [destruct (Qltb humidity 40) |];
    cbn [as_num mbind res_bind]; eauto.
Qed.

(** C10. [engineer_features] leaves its input alone: the dictionary it
    returns has, at every key that is not one of the eleven derived
    feature names, exactly the entry of the input (present with the same
    value, or missing as in the input); its keys are those of the input
    and the eleven derived names; and is_kharif + is_rabi = 1 in it. *)
Theorem engineer_features_frame (input_data engineered : gmap string pyval) :
  Prediction.engineer_features input_data = Ok engineered ->
  (forall k : string,
     ~ In k [ "vegetation_health_score"; "soil_fertility_index"; "heat_stress";
              "cold_stress"; "drought_risk"; "yield_potential_score";
              "N_P_ratio"; "N_K_ratio"; "P_K_ratio"; "is_kharif"; "is_rabi" ] ->
     engineered !! k = input_data !! k) /\
  dom engineered = dom input_data ∪ list_to_set Prediction.derived_features /\
  (forall k : string, In k Prediction.derived_features ->
     exists q, engineered !! k = Some (VNum q)) /\
  (exists is_kharif is_rabi,
     engineered !! "is_kharif" = Some (VNum is_kharif) /\
     engineered !! "is_rabi" = Some (VNum is_rabi) /\
     is_kharif + is_rabi == 1).
Proof.
  unfold Prediction.engineer_features. intros H.
  unfold mbind, res_bind in H. bind_ok H. injection H as <-.
  split; [| split; [| split ] ].
  - intros k Hk.
    repeat (rewrite lookup_insert_ne; [| intros <-; apply Hk; cbn; tauto ]).
    reflexivity.
  - rewrite !dom_insert_L. unfold Prediction.derived_features. cbn [list_to_set].
    apply set_eq. intros x. set_unfold. tauto.
  - intros k Hk. cbn in Hk.
    repeat (destruct Hk as [<- | Hk]; [lookup_key; eauto |]).
    contradiction.
  - eexists _, _. split; [| split]; [lookup_key; reflexivity .. |].
    destruct (Prediction.in_1_2 _); reflexivity.
Qed.

Lemma engineer_features_frame_witness :
  (forall k : string,
     ~ In k [ "vegetation_health_score"; "soil_fertility_index"; "heat_stress";
              "cold_stress"; "drought_risk"; "yield_potential_score";
              "N_P_ratio"; "N_K_ratio"; "P_K_ratio"; "is_kharif"; "is_rabi" ] ->
     try_except (Prediction.engineer_features example_input) ∅ !! k
       = example_input !! k) /\
  dom (try_except (Prediction.engineer_features example_input) ∅)
    = dom example_input ∪ list_to_set Prediction.derived_features /\
  (forall k : string, In k Prediction.derived_features ->
     exists q,
       try_except (Prediction.engineer_features example_input) ∅ !! k
         = Some (VNum q)) /\
  (exists is_kharif is_rabi,
     try_except (Prediction.engineer_features example_input) ∅ !! "is_kharif"
       = Some (VNum is_kharif) /\
     try_except (Prediction.engineer_features example_input) ∅ !! "is_rabi"
       = Some (VNum is_rabi) /\
     is_kharif + is_rabi == 1).
Proof.
  apply (engineer_features_frame example_input).
  apply is_ok_try_except. vm_compute. reflexivity.
Defined.

Lemma categorize_yield_monotone_witness :
  exists c1 c2,
    Prediction._categorize_yield 3400 (VStr "Wheat") = Ok c1 /\
    Prediction._categorize_yield 4600 (VStr "Wheat") = Ok c2 /\
    (if has_thresholds "Wheat" then category_le c1 c2
     else c1 = "Unknown" /\ c2 = "Unknown") /\
    (PyStr.lower "Wheat" = "wheat" ->
       by_thresholds 4500 3500 3400 c1 /\ by_thresholds 4500 3500 4600 c2) /\
    (PyStr.lower "Wheat" = "rice" ->
       by_thresholds 6000 5000 3400 c1 /\ by_thresholds 6000 5000 4600 c2) /\
    (PyStr.lower "Wheat" = "cotton" ->
       by_thresholds 500 350 3400 c1 /\ by_thresholds 500 350 4600 c2).
Proof.
  apply (categorize_yield_monotone "Wheat" 3400 4600).
  unfold Qle. simpl. lia.
Defined.

(** ** Crop recommendations ([get_crop_recommendations]) *)

Section Recommendations.

Import CropPredictionApi.

Variables latitude longitude : Q.
Variable current_crop : string.
Variable farm_size : Q.

Lemma key_lt_false a b : key_lt (sort_key a) (sort_key b) = false -> key_ge a b.
Proof.
  unfold key_lt, sort_key, key_ge, Qeqb. cbn [fst snd].
  intros H. apply orb_false_iff in H. destruct H as [H1 H2].
  apply Qltb_false in H1.
  destruct (Qeq_bool (suitability_score a) (suitability_score b)) eqn:Heq.
  - apply Qeq_bool_iff in Heq. cbn in H2. apply Qltb_false in H2. right. auto.
  - apply Qeq_bool_neq in Heq. left. lra.
Qed.

Lemma key_lt_true a b : key_lt (sort_key a) (sort_key b) = true -> key_ge b a.
Proof.
  unfold key_lt, sort_key, key_ge, Qeqb. cbn [fst snd].
  intros H. apply orb_true_iff in H. destruct H as [H | H].
  - apply Qltb_true in H. left. exact H.
  - apply andb_true_iff in H. destruct H as [Heq Hlt].
    apply Qeq_bool_iff in Heq. apply Qltb_true in Hlt. right. split; lra.
Qed.

Lemma key_ge_trans a b c : key_ge a b -> key_ge b c -> key_ge a c.
Proof. unfold key_ge. intros [H1 | [H1 H1']] [H2 | [H2 H2']]; [left; lra .. | right; split; lra]. Qed.

(** Insertion keeps a descending list descending. *)
Lemma insert_desc_sorted x l :
  StronglySorted key_ge l -> StronglySorted key_ge (insert_desc x l).
Proof.
  induction l as [| y l IH]; intros Hs; cbn.
  - repeat constructor.
  - apply StronglySorted_inv in Hs. destruct Hs as [Hl Hy].
    destruct (key_lt (sort_key x) (sort_key y)) eqn:Hlt.
    + constructor; [now apply IH |].
      assert (Hin : forall z, In z (insert_desc x l) -> z = x \/ In z l).
      { clear. induction l as [| w l IHl]; cbn; intros z Hz.
        - destruct Hz as [<- | []]. now left.
        - destruct (key_lt (sort_key x) (sort_key w)); cbn in Hz.
          + destruct Hz as [<- | Hz]; [right; now left |].
            destruct (IHl z Hz); [now left | right; now right].
          + destruct Hz as [<- | Hz]; [now left | now right]. }
      apply List.Forall_forall. intros z Hz.
      destruct (Hin z Hz) as [-> | Hz'].
      * now apply key_lt_true.
      * rewrite List.Forall_forall in Hy. now apply Hy.
    + apply key_lt_false in Hlt.
      constructor; [constructor; assumption |].
      constructor; [exact Hlt |].
      rewrite List.Forall_forall in *. intros z Hz.
      eapply key_ge_trans; [exact Hlt | now apply Hy].
Qed.

Lemma sort_reverse_sorted l : StronglySorted key_ge (sort_reverse l).
Proof.
  induction l as [| x l IH]; cbn.
  - constructor.
  - now apply insert_desc_sorted.
Qed.

Lemma In_take {A} (z : A) n (l : list A) : In z (take n l) -> In z l.
Proof.
  revert n. induction l as [| x l IH]; intros [| n]; cbn; try tauto.
  intros [-> | Hz]; [now left | right; eapply IH, Hz].
Qed.

Lemma take_sorted {A} (R : A -> A -> Prop) n l :
  StronglySorted R l -> StronglySorted R (take n l).
Proof.
  revert n. induction l as [| x l IH]; intros n Hs.
  - destruct n; constructor.
  - destruct n; cbn; [constructor |].
    apply StronglySorted_inv in Hs. destruct Hs as [Hl Hx].
    constructor; [now apply IH |].
    rewrite List.Forall_forall in *. intros z Hz. eapply Hx, In_take, Hz.
Qed.

(** What holds of every recommendation is kept by the sort. *)
Lemma insert_desc_Forall (P : CropRecommendation -> Prop) x l :
  P x -> List.Forall P l -> List.Forall P (insert_desc x l).
Proof.
  intros Hx. induction 1 as [| y l Hy Hl IH]; cbn.
  - repeat constructor. exact Hx.
  - destruct (key_lt (sort_key x) (sort_key y)); repeat constructor; assumption.
Qed.

Lemma sort_reverse_Forall (P : CropRecommendation -> Prop) l :
  List.Forall P l -> List.Forall P (sort_reverse l).
Proof.
  induction 1 as [| y l Hy Hl IH]; cbn.
  - constructor.
  - now apply insert_desc_Forall.
Qed.

Lemma take_Forall {A} (P : A -> Prop) n (l : list A) :
  List.Forall P l -> List.Forall P (take n l).
Proof.
  intros H. revert n. induction H as [| y l Hy Hl IH]; intros [| n]; cbn;
    constructor; auto.
Qed.

Lemma recommend_loop_Forall (P : CropRecommendation -> Prop)
    current_season lat_factor size_factor items recommendations :
  (forall crop_name crop_data r,
     In (crop_name, crop_data) items ->
     recommend_crop latitude longitude current_crop farm_size current_season
       lat_factor size_factor crop_name crop_data = Some r ->
     P r) ->
  List.Forall P recommendations ->
  List.Forall P
    (recommend_loop latitude longitude current_crop farm_size current_season
       lat_factor size_factor items recommendations).
Proof.
  revert recommendations.
  induction items as [| [crop_name crop_data] items IH];
    intros recommendations Hitems Hacc; cbn.
  - exact Hacc.
  - destruct (recommend_crop _ _ _ _ _ _ _ crop_name crop_data) as [r |] eqn:Hr.
    + apply IH.
      * intros n d r' Hin. apply Hitems. now right.
      * unfold list_append. apply List.Forall_app. split; [exact Hacc |].
        repeat constructor. eapply Hitems; [now left | exact Hr].
    + apply IH; [| exact Hacc].
      intros n d r' Hin. apply Hitems. now right.
Qed.

(** Every recommendation has a property that every entry of the
    database gives to its recommendation. *)
Lemma get_crop_recommendations_Forall (P : CropRecommendation -> Prop) season :
  (forall current_season lat_factor size_factor crop_name crop_data r,
     In (crop_name, crop_data) crop_database ->
     recommend_crop latitude longitude current_crop farm_size current_season
       lat_factor size_factor crop_name crop_data = Some r ->
     P r) ->
  List.Forall P
    (get_crop_recommendations latitude longitude current_crop farm_size season).
Proof.
  intros H. unfold get_crop_recommendations.
  apply take_Forall, sort_reverse_Forall, recommend_loop_Forall.
  - intros n d r Hin Hr. eapply H; eassumption.
  - constructor.
Qed.

(** The names of the database are in lower case, and [title] changes
    case only. *)
Lemma database_names_lower :
  List.Forall (fun item => PyStr.lower (PyStr.title (fst item)) = PyStr.lower (fst item))
    crop_database.
Proof. repeat constructor. Qed.

(** C8. [get_crop_recommendations] never recommends the current crop
    (names compared without regard to case), returns at most 5
    recommendations, and returns them in descending order of the pair
    (suitability_score, expected_yield): of two recommendations the
    earlier has the larger score, or the same score and an expected
    yield that is not smaller. *)
Theorem recommendations_exclude_current_sorted (season : string) :
  List.Forall
    (fun r => PyStr.lower (crop_name r) <> PyStr.lower current_crop)
    (get_crop_recommendations latitude longitude current_crop farm_size season) /\
  (length (get_crop_recommendations latitude longitude current_crop farm_size season)
     <= 5)%nat /\
  StronglySorted key_ge
    (get_crop_recommendations latitude longitude current_crop farm_size season).
Proof.
  split; [| split].
  - apply get_crop_recommendations_Forall.
    intros current_season lat_factor size_factor name data r Hin Hr.
    pose proof database_names_lower as Hlow.
    rewrite List.Forall_forall in Hlow. specialize (Hlow _ Hin). cbn [fst] in Hlow.
    unfold recommend_crop in Hr.
    destruct (String.eqb (PyStr.lower name) (PyStr.lower current_crop)) eqn:Hsame;
      [discriminate Hr |].
    destruct (negb _ && negb _)%bool; [discriminate Hr |].
    injection Hr as <-. cbn [crop_name].
    rewrite Hlow. now apply String.eqb_neq.
  - unfold get_crop_recommendations. rewrite length_take. lia.
  - unfold get_crop_recommendations. apply take_sorted, sort_reverse_sorted.
Qed.

(** C9. Every suitability score that [get_crop_recommendations] returns
    is 0.7, and 0.2 more exactly when the position lies in the central
    Punjab box, and 0.1 more exactly when the farm has 10 acres or
    more, capped at 1; so it is one of 0.7, 0.8, 0.9 and 1.0. *)
Theorem suitability_score_values (season : string) :
  List.Forall
    (fun r =>
       scored_as_specified latitude longitude farm_size (suitability_score r) /\
       (suitability_score r == 0.7 \/ suitability_score r == 0.8 \/
        suitability_score r == 0.9 \/ suitability_score r == 1.0))
    (get_crop_recommendations latitude longitude current_crop farm_size season).
Proof.
  apply get_crop_recommendations_Forall.
  intros current_season lat_factor size_factor name data r _ Hr.
  unfold recommend_crop in Hr.
  destruct (String.eqb _ _); [discriminate Hr |].
  destruct (negb _ && negb _)%bool; [discriminate Hr |].
  injection Hr as <-. cbn [suitability_score].
  unfold scored_as_specified, central_punjab.
  destruct (Qleb 30.5 latitude) eqn:H1, (Qleb latitude 31.5) eqn:H2,
           (Qleb 75.0 longitude) eqn:H3, (Qleb longitude 76.5) eqn:H4,
           (Qleb 10 farm_size) eqn:H5;
    qcmp; cbn [andb];
    (split;
     [ first [ exists 0.2, 0.1; split; [left; repeat split; assumption |];
               split; [left; split; [assumption | reflexivity] | reflexivity]
             | exists 0.2, 0; split; [left; repeat split; assumption |];
               split; [right; split; [assumption | reflexivity] | reflexivity]
             | exists 0, 0.1; split; [right; split; [intros (? & ? & ? & ?); lra | reflexivity] |];
               split; [left; split; [assumption | reflexivity] | reflexivity]
             | exists 0, 0; split; [right; split; [intros (? & ? & ? & ?); lra | reflexivity] |];
               split; [right; split; [assumption | reflexivity] | reflexivity] ]
     | first [ left; reflexivity
             | right; left; reflexivity
             | right; right; left; reflexivity
             | right; right; right; reflexivity ] ]).
Qed.

End Recommendations.

(** ** The feature row of the [/api/v1/predict] handler *)

Section HandlerFeatures.

Variable py_hash : string -> Z.

(** C5, what the code does. The feature row has 39 components. The
    handler compares the estimated season with "Kharif", "Rabi" and
    "Summer", and [estimate_parameters] returns "rabi" or "kharif" in
    lower case: for every request the three season indicators (places
    19, 20 and 21) are all 0, none of them is 1.  Of the twelve month
    indicators (places 22 to 33) exactly the one of the estimated
    sowing month is 1. *)
Theorem season_indicators_all_zero (request : CropPredictionApi.Request.t) :
  length (handler_features py_hash request) = 39%nat /\
  handler_features py_hash request !! 19%nat = Some 0 /\
  handler_features py_hash request !! 20%nat = Some 0 /\
  handler_features py_hash request !! 21%nat = Some 0 /\
  (1 <= handler_sowing_month request <= 12)%Z /\
  handler_features py_hash request
    !! (21 + Z.to_nat (handler_sowing_month request))%nat = Some 1 /\
  (forall i : nat,
     (22 <= i < 34)%nat ->
     i <> (21 + Z.to_nat (handler_sowing_month request))%nat ->
     handler_features py_hash request !! i = Some 0).
Proof.
  unfold handler_features, handler_sowing_month,
    CropPredictionApi.estimate_parameters.
  destruct (PyStr.str_in (PyStr.lower (CropPredictionApi.Request.crop request))
              CropPredictionApi.rabi_crops);
    [| destruct (PyStr.str_in (PyStr.lower (CropPredictionApi.Request.crop request))
                   CropPredictionApi.kharif_crops) ];
    (split; [reflexivity |]); (split; [reflexivity |]);
    (split; [reflexivity |]); (split; [reflexivity |]);
    (split; [cbn; lia |]); (split; [reflexivity |]);
    intros i Hi Hne; cbn in Hne;
    do 22 (destruct i as [| i]; [lia |]);
    do 12 (destruct i as [| i]; [first [reflexivity | lia] |]);
    lia.
Qed.

(** The request of the scenario: wheat is a rabi crop, and the
    indicator of the rabi season is 0 all the same. *)
Example wheat_request_season_rabi_indicator_zero :
  CropPredictionApi.Params.season
    (CropPredictionApi.estimate_parameters 2025 "wheat" "Ludhiana"
       31.6340 75.8573 (Some 2025%Z)) = "rabi" /\
  handler_features py_hash example_request !! 20%nat = Some 0.
Proof. split; reflexivity. Qed.

End HandlerFeatures.


(** * Further properties of the code *)

(** ** [engineer_features]: what it writes *)

Lemma as_num_inv v q : as_num v = Ok q -> v = VNum q.
Proof. destruct v; cbn; intros H; try discriminate H. now injection H as ->. Qed.

Lemma dict_get_num_numeric input k default q :
  dict_get input k (VNum default) = VNum q -> numeric_or_missing input k.
Proof.
  unfold dict_get, numeric_or_missing.
  destruct (input !! k) as [v |]; [intros -> |]; auto.
Qed.

(** The dictionary that a returning [engineer_features] builds. *)
Lemma engineer_features_shape (input_data engineered : gmap string pyval) :
  Prediction.engineer_features input_data = Ok engineered ->
  exists temp vhs sfi dr yps npr nkr pkr ik,
    dict_get input_data "temperature" (VNum 25) = VNum temp /\
    (dr = 0 \/
     exists rainfall humidity,
       dict_get input_data "rainfall" (VNum 0) = VNum rainfall /\
       dict_get input_data "humidity" (VNum 70) = VNum humidity /\
       rainfall < 1 /\ humidity < 40 /\ dr = 1 - humidity / 100) /\
    engineered =
      <["is_rabi" := VNum (1 - ik)]>
      (<["is_kharif" := VNum ik]>
      (<["P_K_ratio" := VNum pkr]>
      (<["N_K_ratio" := VNum nkr]>
      (<["N_P_ratio" := VNum npr]>
      (<["yield_potential_score" := VNum yps]>
      (<["drought_risk" := VNum dr]>
      (<["cold_stress" := VNum (py_max 0 ((10 - temp) / 10))]>
      (<["heat_stress" := VNum (py_max 0 ((temp - 35) / 10))]>
      (<["soil_fertility_index" := VNum sfi]>
      (<["vegetation_health_score" := VNum vhs]> input_data)))))))))).
Proof.
  unfold Prediction.engineer_features. intros H.
  unfold mbind, res_bind in H. bind_ok H. injection H as <-.
  repeat match goal with
  | E : as_num _ = Ok _ |- _ => apply as_num_inv in E
  end.
  match goal with
  | Et : dict_get input_data "temperature" _ = VNum ?t,
    Er : dict_get input_data "rainfall" _ = VNum ?r,
    Ed : _ = Ok ?d |- _ =>
      exists t; eexists _, _, d; eexists _, _, _, _, _;
      split; [exact Et |]; split; [| reflexivity];
      destruct (Qltb r 1) eqn:Hr; [| injection Ed as <-; now left];
      destruct (as_num (dict_get input_data "humidity" (VNum 70)))
        as [h |] eqn:Eh; [| discriminate Ed];
      apply as_num_inv in Eh;
      destruct (Qltb h 40) eqn:Hh; injection Ed as <-; [| now left];
      qcmp; right; exists r, h; auto
  end.
Qed.

Lemma engineer_features_other_keys (input_data engineered : gmap string pyval) k :
  Prediction.engineer_features input_data = Ok engineered ->
  ~ In k Prediction.derived_features ->
  engineered !! k = input_data !! k.
Proof.
  intros H Hk. apply engineer_features_shape in H.
  destruct H as (temp & vhs & sfi & dr & yps & npr & nkr & pkr & ik & _ & _ & ->).
  repeat (rewrite lookup_insert_ne; [| intros <-; apply Hk; cbn; tauto ]).
  reflexivity.
Qed.

(** X1. In the dictionary that [engineer_features] returns, heat stress
    and cold stress are not negative and never both positive, and the
    drought risk is 0 or more than 0.6: it is set only when the rainfall
    is below 1 and the humidity below 40, to 1 - humidity/100. *)
Theorem engineer_features_stress_ranges (input_data engineered : gmap string pyval) :
  Prediction.engineer_features input_data = Ok engineered ->
  exists heat_stress cold_stress drought_risk,
    engineered !! "heat_stress" = Some (VNum heat_stress) /\
    engineered !! "cold_stress" = Some (VNum cold_stress) /\
    engineered !! "drought_risk" = Some (VNum drought_risk) /\
    0 <= heat_stress /\ 0 <= cold_stress /\
    (heat_stress == 0 \/ cold_stress == 0) /\
    (drought_risk == 0 \/ 0.6 < drought_risk).
Proof.
  intros H. apply engineer_features_shape in H.
  destruct H as (temp & vhs & sfi & dr & yps & npr & nkr & pkr & ik & _ & Hdr & ->).
  eexists _, _, _.
  split; [lookup_key; reflexivity |].
  split; [lookup_key; reflexivity |].
  split; [lookup_key; reflexivity |].
  split; [apply py_max_0_nonneg |].
  split; [apply py_max_0_nonneg |].
  split.
  - unfold py_max.
    destruct (Qlt_le_dec 0 ((temp - 35) / 10)) as [Hh | Hh],
             (Qlt_le_dec 0 ((10 - temp) / 10)) as [Hc | Hc];
      try (left; reflexivity); try (right; reflexivity).
    exfalso.
    change ((temp - 35) / 10) with ((temp - 35) * (1 # 10)) in Hh.
    change ((10 - temp) / 10) with ((10 - temp) * (1 # 10)) in Hc.
    lra.
  - destruct Hdr as [-> | (r & h & _ & _ & _ & Hh & ->)]; [left; reflexivity |].
    right. change (h / 100) with (h * (1 # 100)). lra.
Qed.

Lemma engineer_features_stress_ranges_witness :
  exists heat_stress cold_stress drought_risk,
    try_except (Prediction.engineer_features example_input) ∅ !! "heat_stress"
      = Some (VNum heat_stress) /\
    try_except (Prediction.engineer_features example_input) ∅ !! "cold_stress"
      = Some (VNum cold_stress) /\
    try_except (Prediction.engineer_features example_input) ∅ !! "drought_risk"
      = Some (VNum drought_risk) /\
    0 <= heat_stress /\ 0 <= cold_stress /\
    (heat_stress == 0 \/ cold_stress == 0) /\
    (drought_risk == 0 \/ 0.6 < drought_risk).
Proof.
  apply (engineer_features_stress_ranges example_input).
  apply is_ok_try_except. vm_compute. reflexivity.
Defined.

(** [engineer_features] looks at the keys of [read_keys] only. *)
Lemma engineer_features_agree (d d' : gmap string pyval) :
  (forall k, In k read_keys -> d' !! k = d !! k) ->
  match Prediction.engineer_features d with
  | Ok out =>
      exists out',
        Prediction.engineer_features d' = Ok out' /\
        forall k,
          (In k Prediction.derived_features -> out' !! k = out !! k) /\
          (~ In k Prediction.derived_features -> out' !! k = d' !! k)
  | Raise e => Prediction.engineer_features d' = Raise e
  end.
Proof.
  intros Hag.
  assert (Hget : forall k default,
             In k read_keys -> dict_get d' k default = dict_get d k default).
  { intros k default Hk. unfold dict_get. now rewrite Hag. }
  destruct (Prediction.engineer_features d) as [out | e] eqn:H.
  - unfold Prediction.engineer_features in H |- *.
    rewrite !Hget by (cbn; tauto).
    unfold mbind, res_bind in H |- *. bind_ok H. injection H as <-.
    eexists. split; [reflexivity |].
    intros k. split; intros Hk.
    + cbn in Hk.
      repeat (destruct Hk as [<- | Hk]; [lookup_key; reflexivity |]).
      contradiction.
    + repeat (rewrite lookup_insert_ne; [| intros <-; apply Hk; cbn; tauto ]).
      reflexivity.
  - unfold Prediction.engineer_features in H |- *.
    rewrite !Hget by (cbn; tauto).
    unfold mbind, res_bind in H |- *.
    repeat match type of H with
    | match ?m with Ok _ => _ | Raise _ => _ end = Raise _ =>
        destruct m; [| exact H]
    end.
    discriminate H.
Qed.

Lemma read_keys_not_derived k :
  In k read_keys -> ~ In k Prediction.derived_features.
Proof.
  intros Hk. apply str_in_not_In. cbn in Hk.
  repeat (destruct Hk as [<- | Hk]; [reflexivity |]).
  contradiction.
Qed.

Lemma derived_features_dec k :
  {In k Prediction.derived_features} + {~ In k Prediction.derived_features}.
Proof. apply in_dec, string_dec. Qed.

(** X2. [engineer_features] is idempotent: applied to a dictionary it
    returned, it returns that dictionary again. *)
Theorem engineer_features_idempotent (input_data engineered : gmap string pyval) :
  Prediction.engineer_features input_data = Ok engineered ->
  Prediction.engineer_features engineered = Ok engineered.
Proof.
  intros H.
  assert (Hag : forall k, In k read_keys -> engineered !! k = input_data !! k).
  { intros k Hk. eapply engineer_features_other_keys; [exact H |].
    now apply read_keys_not_derived. }
  pose proof (engineer_features_agree input_data engineered Hag) as Hagree.
  rewrite H in Hagree. destruct Hagree as (out' & Hout & Hlook).
  rewrite Hout. f_equal. apply map_eq. intros k.
  destruct (Hlook k) as [Hin Hother].
  destruct (derived_features_dec k) as [Hk | Hk]; auto.
Qed.

Lemma engineer_features_idempotent_witness :
  Prediction.engineer_features
    (try_except (Prediction.engineer_features example_input) ∅)
  = Ok (try_except (Prediction.engineer_features example_input) ∅).
Proof.
  apply (engineer_features_idempotent example_input).
  apply is_ok_try_except. vm_compute. reflexivity.
Defined.

Lemma engineer_features_ignores_derived (input_data : gmap string pyval) k0 v :
  In k0 Prediction.derived_features ->
  Prediction.engineer_features (<[k0 := v]> input_data)
  = Prediction.engineer_features input_data.
Proof.
  intros Hk0.
  assert (Hag : forall k, In k read_keys ->
                  (<[k0 := v]> input_data) !! k = input_data !! k).
  { intros k Hk. apply lookup_insert_ne. intros <-.
    now apply (read_keys_not_derived k0). }
  pose proof (engineer_features_agree input_data _ Hag) as Hagree.
  destruct (Prediction.engineer_features input_data) as [out | e] eqn:H;
    [| exact Hagree].
  destruct Hagree as (out' & Hout & Hlook).
  rewrite Hout. f_equal. apply map_eq. intros k.
  destruct (Hlook k) as [Hin Hother].
  destruct (derived_features_dec k) as [Hk | Hk]; [now apply Hin |].
  rewrite (Hother Hk).
  rewrite lookup_insert_ne by (intros <-; contradiction).
  symmetry. now apply (engineer_features_other_keys input_data).
Qed.

Section DerivedKeys.

Variable np_std : list Q -> Q.
Variable py_repr : pyval -> string.
Variable exn_str : exn -> string.

(** X3. A value that the caller supplies under one of the eleven derived
    feature names has no effect: [engineer_features] and [predict_yield]
    give the same result, or the same error, with and without it. *)
Theorem predict_yield_ignores_derived_keys
    (model_package : option model_package) (input_data : gmap string pyval)
    (k0 : string) (v : pyval) :
  In k0 Prediction.derived_features ->
  Prediction.engineer_features (<[k0 := v]> input_data)
    = Prediction.engineer_features input_data /\
  Prediction.predict_yield np_std py_repr exn_str model_package (<[k0 := v]> input_data)
    = Prediction.predict_yield np_std py_repr exn_str model_package input_data.
Proof.
  intros Hk0. split; [now apply engineer_features_ignores_derived |].
  destruct model_package as [pkg |]; [| reflexivity].
  unfold Prediction.predict_yield, Prediction.predict_yield_body.
  rewrite engineer_features_ignores_derived by exact Hk0.
  assert (Hcrop : dict_get (<[k0 := v]> input_data) "crop_type" (VStr "Unknown")
                  = dict_get input_data "crop_type" (VStr "Unknown")).
  { unfold dict_get. rewrite lookup_insert_ne; [reflexivity |].
    intros ->. cbn in Hk0. intuition discriminate. }
  rewrite Hcrop. reflexivity.
Qed.

End DerivedKeys.

Lemma predict_yield_ignores_derived_keys_witness :
  Prediction.engineer_features (<["heat_stress" := VStr "very hot"]> example_input)
    = Prediction.engineer_features example_input /\
  Prediction.predict_yield std_6dp repr_question exn_question
    (Some (example_pkg (flat_model 4000)))
    (<["heat_stress" := VStr "very hot"]> example_input)
  = Prediction.predict_yield std_6dp repr_question exn_question
      (Some (example_pkg (flat_model 4000))) example_input.
Proof.
  apply (predict_yield_ignores_derived_keys std_6dp repr_question exn_question).
  cbn. tauto.
Defined.

(** ** [engineer_features]: when it raises *)

(** X4. [engineer_features] returns exactly on the inputs in which the
    eight keys it always uses in arithmetic hold numbers or are missing,
    humidity holds a number or is missing whenever the rainfall is below
    1 (it is not looked at otherwise), and neither P_available nor
    K_available is -1 (a division by zero); on every other input it
    raises. *)
Theorem engineer_features_returns_iff (input_data : gmap string pyval) :
  is_ok (Prediction.engineer_features input_data) = true <->
  (forall k, In k always_read -> numeric_or_missing input_data k) /\
  (forall r, dict_get input_data "rainfall" (VNum 0) = VNum r -> r < 1 ->
     numeric_or_missing input_data "humidity") /\
  (forall p, dict_get input_data "P_available" (VNum 15) = VNum p -> ~ p + 1 == 0) /\
  (forall k, dict_get input_data "K_available" (VNum 250) = VNum k -> ~ k + 1 == 0).
Proof.
  split.
  - destruct (Prediction.engineer_features input_data) as [out |] eqn:H;
      [intros _ | discriminate].
    unfold Prediction.engineer_features in H.
    unfold mbind, res_bind in H. bind_ok H. clear H.
    repeat match goal with
    | E : as_num _ = Ok _ |- _ => apply as_num_inv in E
    end.
    match goal with
    | En : dict_get input_data "N_available" _ = VNum ?n,
      Ep : dict_get input_data "P_available" _ = VNum ?p,
      Er : dict_get input_data "rainfall" _ = VNum ?r,
      Ek : dict_get input_data "K_available" _ = VNum ?k,
      Ed : _ = Ok ?d,
      Enp : py_div ?n (?p + 1) = Ok _,
      Enk : py_div ?n (?k + 1) = Ok _ |- _ =>
        split; [| split; [| split] ];
        [ intros key Hkey; cbn in Hkey;
          repeat (destruct Hkey as [<- | Hkey];
                  [eapply dict_get_num_numeric; eassumption |]);
          contradiction
        | intros r' Hr' Hlt; rewrite Er in Hr'; injection Hr' as <-;
          apply Qltb_true in Hlt; rewrite Hlt in Ed;
          destruct (as_num (dict_get input_data "humidity" (VNum 70)))
            as [h |] eqn:Eh; [| discriminate Ed];
          apply as_num_inv in Eh; eapply dict_get_num_numeric; exact Eh
        | intros p' Hp' Hz; rewrite Ep in Hp'; injection Hp' as <-;
          apply Qeq_bool_iff in Hz; unfold py_div in Enp; rewrite Hz in Enp;
          discriminate Enp
        | intros k' Hk' Hz; rewrite Ek in Hk'; injection Hk' as <-;
          apply Qeq_bool_iff in Hz; unfold py_div in Enk; rewrite Hz in Enk;
          discriminate Enk ]
    end.
  - intros (Hnum & Hhum & Hp & Hk).
    assert (Hget : forall k default, In k always_read ->
              exists q, dict_get input_data k (VNum default) = VNum q)
      by (intros; apply as_num_dict_get; auto).
    unfold Prediction.engineer_features.
    destruct (Hget "ndvi_mean" 0.6) as [ndvi ->]; [cbn; tauto |].
    destruct (Hget "ndwi_mean" 0.3) as [ndwi ->]; [cbn; tauto |].
    destruct (Hget "organic_carbon" 0.5) as [oc ->]; [cbn; tauto |].
    destruct (Hget "N_available" 180) as [n_avail ->]; [cbn; tauto |].
    destruct (Hget "P_available" 15) as [p_avail Hpa]; [cbn; tauto |].
    destruct (Hget "temperature" 25) as [temp ->]; [cbn; tauto |].
    destruct (Hget "rainfall" 0) as [rainfall Hra]; [cbn; tauto |].
    destruct (Hget "K_available" 250) as [k_avail Hka]; [cbn; tauto |].
    rewrite Hpa, Hka, Hra. cbn [as_num mbind res_bind].
    assert (Hp1 : Qeq_bool (p_avail + 1) 0 = false).
    { apply not_true_is_false. intros Heq. apply Qeq_bool_iff in Heq.
      now apply (Hp p_avail). }
    assert (Hk1 : Qeq_bool (k_avail + 1) 0 = false).
    { apply not_true_is_false. intros Heq. apply Qeq_bool_iff in Heq.
      now apply (Hk k_avail). }
    unfold py_div. rewrite Hp1, Hk1.
    destruct (Qltb rainfall 1) eqn:Hlt.
    + apply Qltb_true in Hlt.
      destruct (as_num_dict_get input_data "humidity" 70 (Hhum rainfall Hra Hlt))
        as [humidity ->].
      cbn [as_num mbind res_bind]. destruct (Qltb humidity 40); reflexivity.
    + reflexivity.
Qed.

(** ** [_get_recommendations] *)

Lemma length_list_append {A} (l : list A) (x : A) :
  length (list_append l x) = S (length l).
Proof. unfold list_append. rewrite length_app. cbn. lia. Qed.

(** One bind, and one [let] of the list of recommendations, of a
    computation that returned. *)
Ltac rec_bind H :=
  match type of H with
  | match ?m with Ok _ => _ | Raise _ => _ end = Ok _ =>
      destruct m; [| discriminate H]
  end.

Ltac rec_let H :=
  match type of H with
  | (let x := ?V in @?B x) = ?R =>
      let r := fresh "recs" in
      let Hl := fresh "Hlen" in
      pose (r := V);
      lazymatch V with
      | @nil _ => assert (Hl : length r = 0%nat) by reflexivity
      | if _ then list_append ?p _ else _ =>
          assert (Hl : (length p <= length r <= S (length p))%nat)
            by (subst r;
                repeat match goal with
                | |- context [if ?b then _ else _] => destruct b
                end; rewrite ?length_list_append; lia)
      end;
      change (B r = R) in H; cbv beta in H; clearbody r
  end.

Lemma get_recommendations_between
    (features : gmap string pyval) (crop_type : pyval) (recommendations : list string) :
  Prediction._get_recommendations features crop_type = Ok recommendations ->
  (1 <= length recommendations <= 7)%nat.
Proof.
  intros H.
  cbv delta [Prediction._get_recommendations mbind res_bind] beta in H.
  rec_let H. do 6 (rec_bind H; rec_let H). rec_bind H.
  match type of H with
  | match ?m with Ok _ => _ | Raise _ => _ end = Ok _ =>
      destruct m as [crop_recs |] eqn:E; [| discriminate H]
  end.
  assert (Hcrop : (length recs5 <= length crop_recs <= S (length recs5))%nat).
  { repeat match type of E with
    | context [if ?b then _ else _] => destruct b
    | context [match ?m with Ok _ => _ | Raise _ => _ end] =>
        destruct m; [| discriminate E]
    end; injection E as <-; rewrite ?length_list_append; lia. }
  destruct crop_recs as [| r crop_recs].
  - rec_bind H. destruct (Qltb _ _); injection H as <-; cbn; lia.
  - injection H as <-. cbn in *. lia.
Qed.

(** X5. When [_get_recommendations] returns, it returns at least one
    and at most seven recommendations: the general remark stands in when
    no check gave one. *)
Theorem get_recommendations_length
    (features : gmap string pyval) (crop_type : pyval) (recommendations : list string) :
  Prediction._get_recommendations features crop_type = Ok recommendations ->
  (1 <= length recommendations <= 7)%nat.
Proof. apply get_recommendations_between. Qed.

Lemma get_recommendations_length_witness :
  (1 <= length (try_except
                  (Prediction._get_recommendations
                     (try_except (Prediction.engineer_features example_input) ∅)
                     (VStr "Mango")) [])
     <= 7)%nat.
Proof.
  apply (get_recommendations_length
           (try_except (Prediction.engineer_features example_input) ∅) (VStr "Mango")).
  apply is_ok_try_except. vm_compute. reflexivity.
Defined.

Lemma num_item_inv (d : gmap string pyval) k q :
  num_item d k = Ok q -> d !! k = Some (VNum q).
Proof.
  unfold num_item, dict_item, mbind, res_bind.
  destruct (d !! k) as [v |]; [| discriminate].
  intros H. apply as_num_inv in H. now subst.
Qed.

(** The advice for wheat and for cotton reads the temperature. *)
Lemma get_recommendations_reads_temperature
    (features : gmap string pyval) (crop : string) (recommendations : list string) :
  Prediction._get_recommendations features (VStr crop) = Ok recommendations ->
  PyStr.lower crop = "wheat" \/ PyStr.lower crop = "cotton" ->
  exists t, features !! "temperature" = Some (VNum t).
Proof.
  intros H Hcrop.
  cbv delta [Prediction._get_recommendations mbind res_bind] beta in H.
  rec_let H. do 6 (rec_bind H; rec_let H).
  cbn [val_lower] in H.
  match type of H with
  | match ?m with Ok _ => _ | Raise _ => _ end = Ok _ =>
      destruct m as [crop_recs |] eqn:E; [| discriminate H]
  end.
  destruct Hcrop as [Hc | Hc]; rewrite Hc in E; cbn [String.eqb Ascii.eqb Bool.eqb] in E;
    destruct (num_item features "temperature") as [t |] eqn:Et;
    try discriminate E; exists t; now apply num_item_inv.
Qed.

Section WheatTemperature.

Variable np_std : list Q -> Q.
Variable py_repr : pyval -> string.
Variable exn_str : exn -> string.

Lemma predict_yield_body_recommendations pkg input_data result :
  Prediction.predict_yield_body np_std py_repr pkg input_data = Ok result ->
  exists complete_input recommendations,
    Prediction.engineer_features input_data = Ok complete_input /\
    Prediction._get_recommendations complete_input
      (dict_get input_data "crop_type" (VStr "Unknown")) = Ok recommendations /\
    result !! "recommendations" = Some (VList (map VStr recommendations)).
Proof.
  unfold Prediction.predict_yield_body. intros H.
  unfold mbind, res_bind in H.
  destruct (Prediction.engineer_features input_data) as [complete_input |] eqn:Heng;
    [| discriminate H].
  rewrite assemble_features_entries in H. cbn [app] in H.
  bind_ok H. injection H as <-.
  match goal with
  | Hr : Prediction._get_recommendations _ _ = Ok ?r |- _ =>
      exists complete_input, r; split; [reflexivity |]; split; [exact Hr |];
      lookup_key; reflexivity
  end.
Qed.

(** X6. For wheat and for cotton (in any case of the letters)
    [predict_yield] needs a numeric temperature in the input: without
    one, be the key missing or its value no number, the result is an
    error object, whatever the model package. *)
Theorem predict_yield_wheat_needs_temperature
    (model_package : option model_package) (input_data : gmap string pyval)
    (crop : string) :
  input_data !! "crop_type" = Some (VStr crop) ->
  PyStr.lower crop = "wheat" \/ PyStr.lower crop = "cotton" ->
  (forall t, input_data !! "temperature" <> Some (VNum t)) ->
  error_result
    (Prediction.predict_yield np_std py_repr exn_str model_package input_data).
Proof.
  intros Hcrop Hkind Htemp.
  destruct model_package as [pkg |]; cbn; [| eexists; reflexivity].
  destruct (Prediction.predict_yield_body np_std py_repr pkg input_data)
    as [result | e] eqn:Hbody; [| eexists; reflexivity].
  exfalso.
  apply predict_yield_body_recommendations in Hbody.
  destruct Hbody as (ci & recs & Heng & Hrecs & _).
  unfold dict_get in Hrecs. rewrite Hcrop in Hrecs.
  destruct (get_recommendations_reads_temperature _ _ _ Hrecs Hkind) as [t Ht].
  apply (Htemp t). rewrite <- Ht. symmetry.
  apply (engineer_features_other_keys input_data ci); [exact Heng |].
  apply str_in_not_In. reflexivity.
Qed.

End WheatTemperature.

Lemma predict_yield_wheat_needs_temperature_witness :
  error_result
    (Prediction.predict_yield std_6dp repr_question exn_question
       (Some (example_pkg (flat_model 4000)))
       (<["crop_type" := VStr "Wheat"]> ∅)).
Proof.
  apply (predict_yield_wheat_needs_temperature std_6dp repr_question exn_question
           (Some (example_pkg (flat_model 4000)))
           (<["crop_type" := VStr "Wheat"]> ∅) "Wheat").
  - reflexivity.
  - left. reflexivity.
  - intros t. vm_compute. discriminate.
Defined.


(** ** [predict_multiple_scenarios] *)

Section Scenarios.

Variable np_std : list Q -> Q.
Variable py_repr : pyval -> string.
Variable exn_str : exn -> string.
Variable model_package : option model_package.

Lemma scenarios_loop_entries scenarios_list i results :
  Prediction.scenarios_loop np_std py_repr exn_str model_package scenarios_list i results
  = (results ++
     imap (fun j => scenario_entry np_std py_repr exn_str model_package (i + j))
          scenarios_list)%list.
Proof.
  revert i results.
  induction scenarios_list as [| scenario l IH]; intros i results.
  - cbn. now rewrite app_nil_r.
  - cbn [Prediction.scenarios_loop imap]. rewrite IH.
    unfold list_append. rewrite <- app_assoc. cbn [app].
    f_equal. f_equal.
    + unfold scenario_entry. now rewrite Nat.add_0_r.
    + apply imap_ext. intros j s _. cbn. f_equal. lia.
Qed.

(** X7. [predict_multiple_scenarios] returns one result for each
    scenario, in order: the result at index j has scenario_id j + 1, the
    name of the scenario or "Scenario j+1" when it has none, and
    otherwise the entries of [predict_yield] on that scenario; an error
    in one scenario leaves the others as they are. *)
Theorem predict_multiple_scenarios_entries
    (scenarios_list : list (gmap string pyval)) :
  length (Prediction.predict_multiple_scenarios np_std py_repr exn_str
            model_package scenarios_list) = length scenarios_list /\
  forall (j : nat) (scenario : gmap string pyval),
    scenarios_list !! j = Some scenario ->
    exists result,
      Prediction.predict_multiple_scenarios np_std py_repr exn_str
        model_package scenarios_list !! j = Some result /\
      result !! "scenario_id" = Some (VNum (inject_Z (Z.of_nat (j + 1)))) /\
      result !! "scenario_name" =
        Some (dict_get scenario "name"
                (VStr ("Scenario " ++ Prediction.str_nat (j + 1)))) /\
      forall k, k <> "scenario_id" -> k <> "scenario_name" ->
        result !! k =
        Prediction.predict_yield np_std py_repr exn_str model_package scenario !! k.
Proof.
  unfold Prediction.predict_multiple_scenarios.
  rewrite scenarios_loop_entries. cbn [app]. split.
  - apply length_imap.
  - intros j scenario Hj. eexists. split.
    + rewrite list_lookup_imap, Hj. cbn. reflexivity.
    + unfold scenario_entry. cbn [Nat.add].
      split; [lookup_key; reflexivity |].
      split; [lookup_key; reflexivity |].
      intros k Hid Hname. now rewrite !lookup_insert_ne by congruence.
Qed.

End Scenarios.

(** ** The texts of the handler *)

(** X8. [get_general_farming_tips] always returns exactly six tips, the
    five general ones first.  For the kharif and the rabi season the
    sixth is the first tip of the season, so that the tip for the
    location and the tip for the farm size are never shown; for any other
    season the sixth is the tip for a latitude above 31, or else the tip
    for the farm size. *)
Theorem general_farming_tips_six (season : string) (latitude farm_size : Q) :
  length (CropPredictionApi.get_general_farming_tips season latitude farm_size) = 6%nat /\
  take 5 (CropPredictionApi.get_general_farming_tips season latitude farm_size) =
    [ "Conduct soil testing every 2-3 years for optimal fertilizer management";
      "Practice crop rotation to maintain soil health and break pest cycles";
      "Use drip irrigation or sprinkler systems to conserve water";
      "Maintain farm records for input costs and yield tracking";
      "Join farmer producer organizations (FPOs) for better market access" ] /\
  (PyStr.lower season = "kharif" ->
     CropPredictionApi.get_general_farming_tips season latitude farm_size !! 5%nat
       = Some "Ensure proper drainage during monsoon season") /\
  (PyStr.lower season = "rabi" ->
     CropPredictionApi.get_general_farming_tips season latitude farm_size !! 5%nat
       = Some "Plan irrigation schedule as winter has less rainfall") /\
  (PyStr.lower season <> "kharif" -> PyStr.lower season <> "rabi" ->
     (31 < latitude ->
        CropPredictionApi.get_general_farming_tips season latitude farm_size !! 5%nat
          = Some "Take advantage of your region's reputation for quality wheat") /\
     (latitude <= 31 -> 25 <= farm_size ->
        CropPredictionApi.get_general_farming_tips season latitude farm_size !! 5%nat
          = Some "Consider contract farming for assured market and prices") /\
     (latitude <= 31 -> farm_size < 25 ->
        CropPredictionApi.get_general_farming_tips season latitude farm_size !! 5%nat
          = Some "Focus on value addition and direct marketing")).
Proof.
  unfold CropPredictionApi.get_general_farming_tips.
  destruct (String.eqb (PyStr.lower season) "kharif") eqn:Hk;
    [| destruct (String.eqb (PyStr.lower season) "rabi") eqn:Hr ];
    destruct (Qltb 31.0 latitude) eqn:Hlat;
    destruct (Qleb 25 farm_size) eqn:Hfarm;
    qcmp;
    rewrite ?String.eqb_eq, ?String.eqb_neq in *;
    (split; [reflexivity |]); (split; [reflexivity |]);
    (split; [intros Hs; first [reflexivity | congruence | rewrite Hs in *; discriminate] |]);
    (split; [intros Hs; first [reflexivity | congruence | rewrite Hs in *; discriminate] |]);
    intros Hnk Hnr; try congruence;
    (split; [| split]); intros; first [reflexivity | exfalso; lra].
Qed.

(** ** More on [get_crop_recommendations] *)

Section RecommendationContents.

Import CropPredictionApi.

Variables latitude longitude : Q.
Variable current_crop : string.
Variable farm_size : Q.
Variable season : string.

(** What holds of the recommendation of every entry of the database, for
    the season and the factors of the call, holds of every
    recommendation. *)
Lemma get_crop_recommendations_Forall_entry (P : CropRecommendation -> Prop) :
  (forall crop_name crop_data r,
     In (crop_name, crop_data) crop_database ->
     recommend_crop latitude longitude current_crop farm_size (PyStr.lower season)
       (1.0 + (latitude - 31.0) * 0.02)
       (py_min 1.2 (1.0 + (farm_size - 5.0) * 0.01))
       crop_name crop_data = Some r ->
     P r) ->
  List.Forall P
    (get_crop_recommendations latitude longitude current_crop farm_size season).
Proof.
  intros H. unfold get_crop_recommendations.
  apply take_Forall, sort_reverse_Forall, recommend_loop_Forall.
  - exact H.
  - constructor.
Qed.

(** X9. Every recommendation comes from an entry of the crop database
    that grows in the season asked for or all the year; its name is the
    name of the entry in title case, its profitability that of the entry;
    it carries at most three reasons and exactly three tips, the first
    three tips of the crop: the tips for the location and the farm size
    that [get_crop_specific_tips] adds are never shown. *)
Theorem recommendations_from_database :
  List.Forall
    (fun r =>
       exists name data,
         In (name, data) crop_database /\
         crop_name r = PyStr.title name /\
         profitability r = cd_profitability data /\
         (In (PyStr.lower season) (seasons data) \/ In "annual" (seasons data)) /\
         tips r = take 3 (assoc_get tips_database name []) /\
         length (tips r) = 3%nat /\
         (length (reasons r) <= 3)%nat)
    (get_crop_recommendations latitude longitude current_crop farm_size season).
Proof.
  apply get_crop_recommendations_Forall_entry.
  intros name data r Hin Hr.
  unfold recommend_crop in Hr.
  destruct (String.eqb _ _); [discriminate Hr |].
  destruct (negb _ && negb _)%bool eqn:Hseason; [discriminate Hr |].
  injection Hr as <-. cbn [crop_name profitability tips reasons].
  exists name, data.
  split; [exact Hin |]. split; [reflexivity |]. split; [reflexivity |].
  split.
  { apply andb_false_iff in Hseason.
    destruct Hseason as [Hs | Hs]; apply negb_false_iff, str_in_In in Hs; auto. }
  assert (Htips : take 3 (get_crop_specific_tips name latitude longitude farm_size)
                  = take 3 (assoc_get tips_database name []) /\
                  length (take 3 (assoc_get tips_database name [])) = 3%nat).
  { clear -Hin. cbn in Hin.
    repeat (destruct Hin as [Heq | Hin];
            [injection Heq as <- _; split; reflexivity |]).
    contradiction. }
  destruct Htips as [Ht Hl]. rewrite Ht.
  split; [reflexivity |]. split; [exact Hl |].
  rewrite length_take. lia.
Qed.

End RecommendationContents.

Section RecommendationOrder.

Import CropPredictionApi.

Variables latitude longitude : Q.
Variable current_crop : string.
Variable farm_size : Q.
Variable season : string.

Lemma same_score_sorted_by_yield (score : Q) (l : list CropRecommendation) :
  List.Forall (fun r => suitability_score r = score) l ->
  StronglySorted key_ge l ->
  StronglySorted (fun a b => expected_yield b <= expected_yield a) l.
Proof.
  intros Hscore Hsorted.
  induction Hsorted as [| a l Hl IH Ha]; [constructor |].
  apply List.Forall_cons_iff in Hscore. destruct Hscore as [Hsa Hsl].
  constructor; [now apply IH |].
  rewrite List.Forall_forall in *. intros b Hb.
  specialize (Ha b Hb). specialize (Hsl b Hb).
  unfold key_ge in Ha. rewrite Hsa, Hsl in Ha.
  destruct Ha as [Hlt | [_ Hle]]; [exfalso; lra | exact Hle].
Qed.

(** X10. All the recommendations of one call have the same suitability
    score, so the list is in descending order of expected yield alone. *)
Theorem recommendations_sorted_by_yield :
  (forall r1 r2,
     In r1 (get_crop_recommendations latitude longitude current_crop farm_size season) ->
     In r2 (get_crop_recommendations latitude longitude current_crop farm_size season) ->
     suitability_score r1 = suitability_score r2) /\
  StronglySorted (fun a b => expected_yield b <= expected_yield a)
    (get_crop_recommendations latitude longitude current_crop farm_size season).
Proof.
  pose (score :=
    round (py_min 1.0
      (let s := if (Qleb 30.5 latitude && Qleb latitude 31.5
                    && Qleb 75.0 longitude && Qleb longitude 76.5)%bool
                then 0.7 + 0.2 else 0.7 in
       if Qleb 10 farm_size then s + 0.1 else s)) 2).
  assert (Hscore : List.Forall (fun r => suitability_score r = score)
            (get_crop_recommendations latitude longitude current_crop farm_size season)).
  { apply get_crop_recommendations_Forall.
    intros current_season lat_factor size_factor name data r _ Hr.
    unfold recommend_crop in Hr.
    destruct (String.eqb _ _); [discriminate Hr |].
    destruct (negb _ && negb _)%bool; [discriminate Hr |].
    injection Hr as <-. reflexivity. }
  split.
  - rewrite List.Forall_forall in Hscore. intros r1 r2 H1 H2.
    now rewrite (Hscore r1 H1), (Hscore r2 H2).
  - apply (same_score_sorted_by_yield score); [exact Hscore |].
    unfold get_crop_recommendations. apply take_sorted, sort_reverse_sorted.
Qed.

(** Bounds of the two factors of the expected yield. *)
Lemma expected_yield_between (base lat_factor size_factor : Q) :
  900 <= base <= 2800 ->
  0.96 <= lat_factor <= 1.04 ->
  0.95 <= size_factor <= 1.2 ->
  820.8 <= base * lat_factor * size_factor <= 3494.4.
Proof.
  intros [Hb1 Hb2] [Hl1 Hl2] [Hs1 Hs2].
  assert (H1 : 864 <= base * lat_factor <= 2912) by (split; nra).
  destruct H1 as [H1 H2]. split; nra.
Qed.

(** X11. For a position and a farm that the request model admits
    (latitude from 29 to 33, a positive farm size) every expected yield
    recommended lies between 820.8 and 3494.4: the factor of the latitude
    stays within 4 per cent of 1, the factor of the farm size between
    0.95 and 1.2, the base yields between 900 and 2800. *)
Theorem recommendations_expected_yield_bounds :
  29 <= latitude <= 33 ->
  0 < farm_size ->
  List.Forall
    (fun r => 820.8 <= expected_yield r <= 3494.4)
    (get_crop_recommendations latitude longitude current_crop farm_size season).
Proof.
  intros [Hlat1 Hlat2] Hfarm.
  apply get_crop_recommendations_Forall_entry.
  intros name data r Hin Hr.
  unfold recommend_crop in Hr.
  destruct (String.eqb _ _); [discriminate Hr |].
  destruct (negb _ && negb _)%bool; [discriminate Hr |].
  injection Hr as <-. cbn [expected_yield].
  assert (Hbase : 900 <= base_yield data <= 2800).
  { clear -Hin. cbn in Hin.
    repeat (destruct Hin as [Heq | Hin];
            [injection Heq as _ <-; cbn; split; discriminate |]).
    contradiction. }
  assert (Hsize : 0.95 <= py_min 1.2 (1.0 + (farm_size - 5.0) * 0.01) <= 1.2).
  { unfold py_min. destruct (Qlt_le_dec _ _); split; lra. }
  assert (Hlatf : 0.96 <= 1.0 + (latitude - 31.0) * 0.02 <= 1.04) by (split; lra).
  destruct (expected_yield_between _ _ _ Hbase Hlatf Hsize) as [Hlo Hhi].
  split.
  - apply Qle_trans with (round 820.8 1); [discriminate |].
    now apply round_mono.
  - apply Qle_trans with (round 3494.4 1); [| discriminate].
    now apply round_mono.
Qed.

End RecommendationOrder.

Lemma recommendations_expected_yield_bounds_witness :
  List.Forall
    (fun r => 820.8 <= CropPredictionApi.expected_yield r <= 3494.4)
    (CropPredictionApi.get_crop_recommendations 31.6340 75.8573 "wheat" 5.0 "rabi").
Proof.
  apply (recommendations_expected_yield_bounds 31.6340 75.8573 "wheat" 5.0 "rabi").
  - split; discriminate.
  - reflexivity.
Defined.

(** ** The values of [estimate_parameters] *)

Lemma round_between (lo hi lo' hi' x : Q) (n : nat) :
  lo' <= round lo n -> round hi n <= hi' -> lo <= x <= hi ->
  lo' <= round x n <= hi'.
Proof.
  intros Hlo Hhi [H1 H2]. split.
  - apply Qle_trans with (round lo n); [exact Hlo | now apply round_mono].
  - apply Qle_trans with (round hi n); [now apply round_mono | exact Hhi].
Qed.

Lemma Qabs_between (x b : Q) : - b <= x <= b -> 0 <= Qabs x <= b.
Proof.
  intros H. split; [apply Qabs_nonneg | now apply Qabs_Qle_condition].
Qed.

Ltac round_in lo hi :=
  apply (round_between lo hi); [discriminate | discriminate | split; lra].

(** X12. For a position that the request model admits (latitude from 29
    to 33, longitude from 73 to 77) the estimated parameters stay in
    narrow ranges, whatever the crop: temperature 21.2 to 28.8, humidity
    68.4 to 75, rainfall 530 to 832, wind speed 8 to 8.8, pH 6.9 to 7.3,
    organic carbon 0.56 to 0.62, N 262 to 278, P 20.5 to 22.9 and K 298
    to 322. *)
Theorem estimate_parameters_ranges
    (now_year : Z) (crop district : string) (latitude longitude : Q)
    (year : option Z) :
  29 <= latitude <= 33 ->
  73 <= longitude <= 77 ->
  21.2 <= CropPredictionApi.Params.temperature
            (CropPredictionApi.estimate_parameters now_year crop district latitude longitude year)
       <= 28.8 /\
  68.4 <= CropPredictionApi.Params.humidity
            (CropPredictionApi.estimate_parameters now_year crop district latitude longitude year)
       <= 75 /\
  530 <= CropPredictionApi.Params.rainfall
           (CropPredictionApi.estimate_parameters now_year crop district latitude longitude year)
      <= 832 /\
  8 <= CropPredictionApi.Params.wind_speed
         (CropPredictionApi.estimate_parameters now_year crop district latitude longitude year)
    <= 8.8 /\
  6.9 <= CropPredictionApi.Params.pH
           (CropPredictionApi.estimate_parameters now_year crop district latitude longitude year)
      <= 7.3 /\
  0.56 <= CropPredictionApi.Params.organic_carbon
            (CropPredictionApi.estimate_parameters now_year crop district latitude longitude year)
       <= 0.62 /\
  262 <= CropPredictionApi.Params.N_available
           (CropPredictionApi.estimate_parameters now_year crop district latitude longitude year)
      <= 278 /\
  20.5 <= CropPredictionApi.Params.P_available
            (CropPredictionApi.estimate_parameters now_year crop district latitude longitude year)
       <= 22.9 /\
  298 <= CropPredictionApi.Params.K_available
           (CropPredictionApi.estimate_parameters now_year crop district latitude longitude year)
      <= 322.
Proof.
  intros Hlat Hlon.
  assert (Hlf : - 0.8 <= (latitude - 31.0) * 0.4 <= 0.8) by (split; lra).
  assert (Hof : - 0.75 <= (longitude - 75.5) * 0.3 <= 0.75) by (split; lra).
  pose proof (Qabs_between ((latitude - 31.0) * 0.4) 0.8 Hlf) as Half.
  pose proof (Qabs_between ((longitude - 75.5) * 0.3) 0.75 Hof) as Haof.
  unfold CropPredictionApi.estimate_parameters.
  set (lf := (latitude - 31.0) * 0.4) in *.
  set (lonf := (longitude - 75.5) * 0.3) in *.
  set (alf := Qabs lf) in *. set (aof := Qabs lonf) in *.
  assert (Hof' : lonf <= 0.45) by (subst lonf; lra).
  assert (Hlf' : lf == (latitude - 31.0) * 0.4) by reflexivity.
  clearbody alf aof lonf.
  destruct (PyStr.str_in (PyStr.lower crop) CropPredictionApi.rabi_crops);
    [| destruct (PyStr.str_in (PyStr.lower crop) CropPredictionApi.kharif_crops) ];
    cbn -[round Qabs Qplus Qminus Qmult Qle];
    (split; [first [round_in 21.2 22.8 | round_in 27.2 28.8] |]);
    (split; [first [round_in 68.4 70 | round_in 74.2 75] |]);
    (split; [first [round_in 530 570 | round_in 768 832] |]);
    (split; [round_in 8 8.75 |]);
    (split; [round_in 6.9 7.3 |]);
    (split; [round_in 0.5625 0.6225 |]);
    (split; [round_in 262 278 |]);
    (split; [round_in 20.5 22.9 |]);
    round_in 298 322.
Qed.

Lemma estimate_parameters_ranges_witness :
  21.2 <= CropPredictionApi.Params.temperature
            (CropPredictionApi.estimate_parameters 2025 "wheat" "Ludhiana" 31.6340 75.8573 None)
       <= 28.8 /\
  68.4 <= CropPredictionApi.Params.humidity
            (CropPredictionApi.estimate_parameters 2025 "wheat" "Ludhiana" 31.6340 75.8573 None)
       <= 75 /\
  530 <= CropPredictionApi.Params.rainfall
           (CropPredictionApi.estimate_parameters 2025 "wheat" "Ludhiana" 31.6340 75.8573 None)
      <= 832 /\
  8 <= CropPredictionApi.Params.wind_speed
         (CropPredictionApi.estimate_parameters 2025 "wheat" "Ludhiana" 31.6340 75.8573 None)
    <= 8.8 /\
  6.9 <= CropPredictionApi.Params.pH
           (CropPredictionApi.estimate_parameters 2025 "wheat" "Ludhiana" 31.6340 75.8573 None)
      <= 7.3 /\
  0.56 <= CropPredictionApi.Params.organic_carbon
            (CropPredictionApi.estimate_parameters 2025 "wheat" "Ludhiana" 31.6340 75.8573 None)
       <= 0.62 /\
  262 <= CropPredictionApi.Params.N_available
           (CropPredictionApi.estimate_parameters 2025 "wheat" "Ludhiana" 31.6340 75.8573 None)
      <= 278 /\
  20.5 <= CropPredictionApi.Params.P_available
            (CropPredictionApi.estimate_parameters 2025 "wheat" "Ludhiana" 31.6340 75.8573 None)
       <= 22.9 /\
  298 <= CropPredictionApi.Params.K_available
           (CropPredictionApi.estimate_parameters 2025 "wheat" "Ludhiana" 31.6340 75.8573 None)
      <= 322.
Proof.
  apply (estimate_parameters_ranges 2025 "wheat" "Ludhiana" 31.6340 75.8573 None);
    split; discriminate.
Defined.

(** ** The [/api/v1/predict] handler *)

Section Handler.

Variable py_hash : string -> Z.
Variable exn_str : exn -> string.

(** X13. The handler of [/api/v1/predict] fails with status 500 and with
    nothing else: the 503 for a missing model is raised inside the [try]
    block, so it too leaves as a 500 whose detail quotes it.  With a
    model loaded the handler answers exactly when [model.predict] returns
    on the feature row. *)
Theorem handler_fails_with_500
    (model : option (list Q -> res Q)) (request : CropPredictionApi.Request.t) :
  (forall e,
     CropPredictionApi.predict_crop_yield py_hash exn_str model request = Raise e ->
     exists detail, e = HTTPException 500 detail) /\
  (model = None ->
     CropPredictionApi.predict_crop_yield py_hash exn_str model request
     = Raise (HTTPException 500
                ("Prediction failed: " ++
                 exn_str (HTTPException 503 "Prediction model not available")))) /\
  (forall model_predict,
     model = Some model_predict ->
     is_ok (CropPredictionApi.predict_crop_yield py_hash exn_str model request)
     = is_ok (model_predict (handler_features py_hash request))).
Proof.
  split; [| split].
  - intros e. unfold CropPredictionApi.predict_crop_yield.
    destruct (CropPredictionApi.predict_crop_yield_body py_hash model request);
      [discriminate |].
    intros [= <-]. eexists. reflexivity.
  - intros ->. reflexivity.
  - intros model_predict ->.
    unfold CropPredictionApi.predict_crop_yield,
      CropPredictionApi.predict_crop_yield_body, handler_features.
    unfold mbind, res_bind.
    destruct (model_predict _); reflexivity.
Qed.

Variable float_str : Q -> string.
Variable random : Q.

Lemma crop_types_lookup (h : Z) :
  exists c,
    map fst CropPredictionApi.base_yields
      !! Z.to_nat (h mod Z.of_nat (length (map fst CropPredictionApi.base_yields)))
    = Some c.
Proof.
  apply lookup_lt_is_Some_2.
  assert (0 <= h mod 8 < 8)%Z by (apply Z.mod_pos_bound; lia).
  cbn. lia.
Qed.

Lemma clamp_range (x : Q) : 800 <= py_max 800 (py_min 3500 x) <= 3500.
Proof.
  unfold py_max, py_min.
  destruct (Qlt_le_dec x 3500); destruct (Qlt_le_dec 800 _); split; lra.
Qed.

Lemma dummy_predict_row_range (model_hash : string -> Z) (row : list Q) :
  (3 <= length row)%nat ->
  exists p,
    CropPredictionApi.dummy_predict_row model_hash float_str random row = Ok p /\
    800 <= p <= 3500.
Proof.
  intros Hlen.
  destruct row as [| r0 [| r1 [| r2 row] ] ]; cbn in Hlen; try lia.
  unfold CropPredictionApi.dummy_predict_row.
  cbn [CropPredictionApi.row_item lookup list_lookup mbind res_bind].
  destruct (crop_types_lookup
              (model_hash (PyStr.lower (float_str r2))
                 mod Z.of_nat (length CropPredictionApi.base_yields))) as [c Hc].
  rewrite Hc. eexists. split; [reflexivity |]. apply clamp_range.
Qed.

(** X14. With the demo model that stands in for a missing model file
    the handler of [/api/v1/predict] always answers, whatever the hash
    and the random draw: the predicted yield lies between 800 and 3500
    and the reported range between 680 and 4025, around the predicted
    yield. *)
Theorem dummy_model_handler_range
    (model_hash : string -> Z) (request : CropPredictionApi.Request.t) :
  exists response,
    CropPredictionApi.predict_crop_yield py_hash exn_str
      (Some (CropPredictionApi.dummy_predict_row model_hash float_str random)) request
    = Ok response /\
    800 <= CropPredictionApi.predicted_yield response <= 3500 /\
    680 <= CropPredictionApi.yield_range_minimum response /\
    CropPredictionApi.yield_range_minimum response
      <= CropPredictionApi.predicted_yield response /\
    CropPredictionApi.predicted_yield response
      <= CropPredictionApi.yield_range_maximum response /\
    CropPredictionApi.yield_range_maximum response <= 4025.
Proof.
  unfold CropPredictionApi.predict_crop_yield,
    CropPredictionApi.predict_crop_yield_body.
  unfold mbind, res_bind.
  set (features := CropPredictionApi.predict_features _ _ _).
  assert (Hlen : (3 <= length features)%nat) by (cbn; lia).
  clearbody features.
  destruct (dummy_predict_row_range model_hash features Hlen) as [p [Hp [Hlo Hhi]]].
  rewrite Hp. eexists. split; [reflexivity |].
  cbn [CropPredictionApi.predicted_yield CropPredictionApi.yield_range_minimum
       CropPredictionApi.yield_range_maximum].
  split; [apply (round_between 800 3500); [discriminate | discriminate | split; assumption] |].
  split; [apply Qle_trans with (round 680 1); [discriminate | apply round_mono; lra] |].
  split; [apply round_mono; lra |].
  split; [apply round_mono; lra |].
  apply Qle_trans with (round 4025 1); [apply round_mono; lra | discriminate].
Qed.

End Handler.

(** ** The season of the Flask form and of the API *)

Ltac season_case s name :=
  let H := fresh "Hname" in
  destruct (String.eqb s name) eqn:H;
  [ apply String.eqb_eq in H; subst s; cbn;
    split;
    [ intros [Hs Hm]; first [discriminate Hs | tauto]
    | intros Hin; first [split; reflexivity | exfalso; intuition discriminate] ]
  | apply String.eqb_neq in H; cbn [orb] ].

(** X15. The Flask form and [estimate_parameters] detect the season
    from different tables.  They give the same season and sowing month
    exactly for the ten crops wheat, barley, mustard, potato, rice, corn,
    maize, cotton, soybean and sugarcane (in any case of the letters);
    for peas and for every unknown crop the form says kharif and June
    where the API says rabi and November. *)
Theorem flask_season_agrees_iff
    (now_year : Z) (crop district : string) (latitude longitude : Q)
    (year : option Z) (form_latitude : Q) :
  (FlaskFrontend.season (FlaskFrontend.smart_defaults crop form_latitude)
   = CropPredictionApi.Params.season
       (CropPredictionApi.estimate_parameters now_year crop district
          latitude longitude year) /\
   FlaskFrontend.sowing_month (FlaskFrontend.smart_defaults crop form_latitude)
   = CropPredictionApi.Params.sowing_month
       (CropPredictionApi.estimate_parameters now_year crop district
          latitude longitude year))
  <->
  In (PyStr.lower crop)
     [ "wheat"; "barley"; "mustard"; "potato"; "rice"; "corn"; "maize";
       "cotton"; "soybean"; "sugarcane" ].
Proof.
  unfold FlaskFrontend.smart_defaults, CropPredictionApi.estimate_parameters,
    PyStr.str_in, CropPredictionApi.rabi_crops, CropPredictionApi.kharif_crops.
  generalize (PyStr.lower crop). intros s. cbn [existsb orb].
  season_case s "wheat". season_case s "barley". season_case s "mustard".
  season_case s "potato". season_case s "peas". season_case s "rice".
  season_case s "corn". season_case s "maize". season_case s "cotton".
  season_case s "soybean". season_case s "sugarcane".
  cbn. split.
  - intros [Hs _]. discriminate Hs.
  - intros Hin. exfalso. cbn in Hin. intuition congruence.
Qed.

(** ** [get_seasonal_advice] *)

(** X16. [get_seasonal_advice] has a text for every month of the rabi
    and of the kharif season.  It returns the empty string exactly when
    the season is neither of the two (names in any case of the letters)
    and the latitude lies from 30.5 to 31.5, where no remark on the
    location is added. *)
Theorem seasonal_advice_empty_iff
    (now_month : Z) (season : string) (latitude : Q) (current_month : option Z) :
  CropPredictionApi.get_seasonal_advice now_month season latitude current_month = ""
  <->
  PyStr.lower season <> "rabi" /\ PyStr.lower season <> "kharif" /\
  30.5 <= latitude /\ latitude <= 31.5.
Proof.
  unfold CropPredictionApi.get_seasonal_advice.
  generalize (match current_month with Some m => m | None => now_month end).
  intros m.
  destruct (String.eqb (PyStr.lower season) "rabi") eqn:Hrabi;
    [| destruct (String.eqb (PyStr.lower season) "kharif") eqn:Hkharif ];
    rewrite ?String.eqb_eq, ?String.eqb_neq in *;
    repeat match goal with
    | |- context [CropPredictionApi.int_in ?x ?l] =>
        destruct (CropPredictionApi.int_in x l)
    end;
    destruct (Qltb 31.5 latitude) eqn:Hnorth;
    try destruct (Qltb latitude 30.5) eqn:Hsouth;
    qcmp;
    (split;
     [ intros H; first [discriminate H | repeat split; assumption]
     | intros (Hr & Hk & Hlo & Hhi);
       first [reflexivity | contradiction | exfalso; lra] ]).
Qed.

(** ** The [/predict] handler of the FastAPI backend *)

Section FastapiPredict.

Import FastapiBackend.

Variable np_std : list Q -> Q.
Variable py_hash : string -> Z.
Variable exn_str : exn -> string.
Variable val_str : pyval -> string.
Variable fixed1 : Q -> string.

(** What the prediction function hands on when it returns. *)
Lemma comprehensive_prediction_ok loaded input_data predicted_value text result :
  comprehensive_prediction np_std val_str loaded input_data
    = Ok (predicted_value, text, result) ->
  exists pkg q,
    loaded = Ok pkg /\ predicted_value = VNum q /\
    dict_get result "model_used" (VStr "RandomForestRegressor")
      = VStr (model_name pkg).
Proof.
  unfold comprehensive_prediction, mbind, res_bind.
  destruct loaded as [pkg |]; [| discriminate].
  destruct (PredictionFunction.predict_crop_yield np_std
              (prediction_input input_data) pkg) as [r |] eqn:Hr; [| discriminate].
  apply predict_crop_yield_inv in Hr.
  destruct Hr as (fa & p & lo & up & _ & _ & ->).
  unfold dict_item. lookup_key.
  intros [= <- _ <-]. exists pkg. eexists.
  split; [reflexivity |]. split; [reflexivity |].
  unfold dict_get. lookup_key. reflexivity.
Qed.

(** X17. With a model loaded, the [/predict] handler of the FastAPI
    backend answers exactly when the prediction function returns or the
    model returns on the four fallback features.  When the prediction
    function raised, the answer names the model "fallback"; when it
    returned, the answer names the model of the package.  Every failure
    of the handler, also the 503 for a missing model, leaves with status
    500. *)
Theorem fastapi_predict_fallback
    (model_predict : list Q -> res Q) (loaded : res model_package)
    (input_data : PredictionInput) :
  is_ok (predict np_std py_hash exn_str val_str fixed1
           (Some model_predict) loaded input_data)
  = (is_ok (comprehensive_prediction np_std val_str loaded input_data)
     || is_ok (model_predict (fallback_row py_hash input_data)))%bool /\
  (forall response,
     predict np_std py_hash exn_str val_str fixed1
       (Some model_predict) loaded input_data = Ok response ->
     (is_ok (comprehensive_prediction np_std val_str loaded input_data) = false ->
      model_type response = "fallback") /\
     (forall pkg,
        loaded = Ok pkg ->
        is_ok (comprehensive_prediction np_std val_str loaded input_data) = true ->
        model_type response = model_name pkg)) /\
  (forall model e,
     predict np_std py_hash exn_str val_str fixed1 model loaded input_data = Raise e ->
     exists detail, e = HTTPException 500 detail).
Proof.
  split; [| split].
  - unfold predict, predict_body, mbind, res_bind.
    destruct (comprehensive_prediction np_std val_str loaded input_data)
      as [ [ [pv text] result] |] eqn:Hc.
    + destruct (comprehensive_prediction_ok _ _ _ _ _ Hc) as (pkg & q & _ & -> & ->).
      reflexivity.
    + unfold fallback_prediction, fallback_row, mbind, res_bind.
      destruct (model_predict _); reflexivity.
  - intros response. unfold predict, predict_body, mbind, res_bind.
    destruct (comprehensive_prediction np_std val_str loaded input_data)
      as [ [ [pv text] result] |] eqn:Hc.
    + destruct (comprehensive_prediction_ok _ _ _ _ _ Hc) as (pkg & q & Hl & -> & ->).
      cbn. intros [= <-]. split; [discriminate |].
      intros pkg' Hpkg _. rewrite Hl in Hpkg. now injection Hpkg as ->.
    + unfold fallback_prediction, mbind, res_bind.
      destruct (model_predict _); [| discriminate].
      cbn. intros [= <-]. split; [reflexivity | discriminate].
  - intros model e. unfold predict.
    destruct (predict_body _ _ _ _ _ _ _); [discriminate |].
    intros [= <-]. eexists. reflexivity.
Qed.

Lemma fastapi_clamp_range (x : Q) : 500 <= py_max 500 (py_min 3000 x) <= 3000.
Proof.
  unfold py_max, py_min.
  destruct (Qlt_le_dec x 3000); destruct (Qlt_le_dec 500 _); split; lra.
Qed.

(** X18. The demo model of the FastAPI backend predicts between 500 and
    3000 for every row, also a row of fewer than four numbers or none,
    and raises nothing; with it as the model the [/predict] handler
    always answers, whether the package loads or not. *)
Theorem fastapi_dummy_model_answers
    (random : Q) (row : list Q) (loaded : res model_package)
    (input_data : PredictionInput) :
  500 <= dummy_predict_row random row <= 3000 /\
  is_ok (predict np_std py_hash exn_str val_str fixed1
           (Some (fun row => Ok (dummy_predict_row random row))) loaded input_data)
  = true.
Proof.
  split; [apply fastapi_clamp_range |].
  unfold predict, predict_body, mbind, res_bind.
  destruct (comprehensive_prediction np_std val_str loaded input_data)
    as [ [ [pv text] result] |] eqn:Hc.
  - destruct (comprehensive_prediction_ok _ _ _ _ _ Hc) as (pkg & q & _ & -> & ->).
    reflexivity.
  - reflexivity.
Qed.

End FastapiPredict.


(** ** The feature list: values in schema order *)

Section FeatureValues.

Variable py_repr : pyval -> string.
Variable encoders : gmap string (pyval -> res pyval).
Variable input : gmap string pyval.

(** X19. A value that is there reaches the feature list unchanged, at
    the place of its name in the schema: the input value of a feature
    that is not encoded, and for an encoded feature what its encoder
    returns, on the value of the base column in [predict_crop_yield] and
    on [str] of that value in [predict_yield]. *)
Theorem feature_values_in_schema_order
    (names : list string) (i : nat) (feature : string) :
  names !! i = Some feature ->
  (encoded_feature feature = false ->
   forall v, input !! feature = Some v ->
     PredictionFunction.prepare_features encoders input names [] !! i = Some v /\
     fst (Prediction.assemble_features py_repr encoders input names [] []) !! i
       = Some v) /\
  (encoded_feature feature = true ->
   forall encoder v encoded,
     encoders !! base_column feature = Some encoder ->
     input !! base_column feature = Some v ->
     (encoder v = Ok encoded ->
      PredictionFunction.prepare_features encoders input names [] !! i
        = Some encoded) /\
     (encoder (as_str py_repr v) = Ok encoded ->
      fst (Prediction.assemble_features py_repr encoders input names [] []) !! i
        = Some encoded)).
Proof.
  intros Hi.
  rewrite prepare_features_entries, assemble_features_entries. cbn [fst app].
  rewrite !list_lookup_fmap, Hi. cbn [fmap option_fmap option_map].
  unfold feature_entry, dict_get.
  split.
  - intros -> v ->. split; reflexivity.
  - intros -> encoder v encoded -> ->.
    split; intros He; unfold try_except, id; rewrite He; reflexivity.
Qed.

End FeatureValues.

Lemma feature_values_in_schema_order_witness :
  (encoded_feature "temperature" = false ->
   forall v, example_input !! "temperature" = Some v ->
     PredictionFunction.prepare_features
       (label_encoders (example_pkg (flat_model 4000))) example_input
       (feature_names (example_pkg (flat_model 4000))) [] !! 0%nat = Some v /\
     fst (Prediction.assemble_features repr_question
            (label_encoders (example_pkg (flat_model 4000))) example_input
            (feature_names (example_pkg (flat_model 4000))) [] []) !! 0%nat
       = Some v) /\
  (encoded_feature "temperature" = true ->
   forall encoder v encoded,
     label_encoders (example_pkg (flat_model 4000)) !! base_column "temperature"
       = Some encoder ->
     example_input !! base_column "temperature" = Some v ->
     (encoder v = Ok encoded ->
      PredictionFunction.prepare_features
        (label_encoders (example_pkg (flat_model 4000))) example_input
        (feature_names (example_pkg (flat_model 4000))) [] !! 0%nat
        = Some encoded) /\
     (encoder (as_str repr_question v) = Ok encoded ->
      fst (Prediction.assemble_features repr_question
             (label_encoders (example_pkg (flat_model 4000))) example_input
             (feature_names (example_pkg (flat_model 4000))) [] []) !! 0%nat
        = Some encoded)).
Proof.
  apply (feature_values_in_schema_order repr_question
           (label_encoders (example_pkg (flat_model 4000))) example_input
           (feature_names (example_pkg (flat_model 4000))) 0 "temperature").
  reflexivity.
Defined.

(** ** A successful [predict_yield] *)

Section SuccessContents.

Variable np_std : list Q -> Q.
Variable py_repr : pyval -> string.

Lemma categorize_yield_values yield_val crop_type category :
  Prediction._categorize_yield yield_val crop_type = Ok category ->
  In category ["High"; "Medium"; "Low"; "Unknown"].
Proof.
  unfold Prediction._categorize_yield, mbind, res_bind.
  destruct (val_lower crop_type) as [c |]; [| discriminate].
  repeat match goal with
  | |- context [if ?b then _ else _] => destruct b
  end; intros [= <-]; cbn; tauto.
Qed.

(** X20. A result of [predict_yield] that is no error carries between
    one and seven recommendations, a yield category among High, Medium,
    Low and Unknown, and a missing_features_count that is at most the
    number of features of the schema. *)
Theorem predict_yield_success_contents pkg input_data result :
  Prediction.predict_yield_body np_std py_repr pkg input_data = Ok result ->
  exists recommendations category missing,
    result !! "recommendations" = Some (VList (map VStr recommendations)) /\
    (1 <= length recommendations <= 7)%nat /\
    result !! "yield_category" = Some (VStr category) /\
    In category ["High"; "Medium"; "Low"; "Unknown"] /\
    result !! "missing_features_count" = Some (VNum (inject_Z (Z.of_nat missing))) /\
    (missing <= length (feature_names pkg))%nat.
Proof.
  intros H.
  destruct (predict_yield_body_recommendations np_std py_repr _ _ _ H)
    as (ci & recs & Heng & Hrecs & Hlook).
  apply predict_yield_body_inv in H.
  destruct H as (ci' & fa & p & lo & up & c & eng & recs' & Heng' & _ & _ & Hcat & ->).
  exists recs, c. eexists.
  split; [exact Hlook |].
  split; [eapply get_recommendations_between; exact Hrecs |].
  split; [lookup_key; reflexivity |].
  split; [eapply categorize_yield_values; exact Hcat |].
  split; [lookup_key; reflexivity |].
  apply List.filter_length_le.
Qed.

End SuccessContents.

Lemma predict_yield_success_contents_witness :
  exists recommendations category missing,
    try_except
      (Prediction.predict_yield_body std_6dp repr_question
         (example_pkg (flat_model 4000)) example_input) ∅
      !! "recommendations" = Some (VList (map VStr recommendations)) /\
    (1 <= length recommendations <= 7)%nat /\
    try_except
      (Prediction.predict_yield_body std_6dp repr_question
         (example_pkg (flat_model 4000)) example_input) ∅
      !! "yield_category" = Some (VStr category) /\
    In category ["High"; "Medium"; "Low"; "Unknown"] /\
    try_except
      (Prediction.predict_yield_body std_6dp repr_question
         (example_pkg (flat_model 4000)) example_input) ∅
      !! "missing_features_count" = Some (VNum (inject_Z (Z.of_nat missing))) /\
    (missing <= length (feature_names (example_pkg (flat_model 4000))))%nat.
Proof.
  apply (predict_yield_success_contents std_6dp repr_question
           (example_pkg (flat_model 4000)) example_input).
  apply is_ok_try_except. vm_compute. reflexivity.
Defined.

(** ** How many recommendations *)

Section RecommendationCount.

Import CropPredictionApi.

Variables latitude longitude : Q.
Variable farm_size : Q.

Lemma insert_desc_length x l : length (insert_desc x l) = S (length l).
Proof.
  induction l as [| y l IH]; cbn; [reflexivity |].
  destruct (key_lt (sort_key x) (sort_key y)); cbn; [now rewrite IH | reflexivity].
Qed.

Lemma sort_reverse_length l : length (sort_reverse l) = length l.
Proof.
  unfold sort_reverse.
  induction l as [| x l IH]; cbn [foldr]; [reflexivity |].
  now rewrite insert_desc_length, IH.
Qed.

(** The entries of the database that the loop does not skip. *)
Lemma recommend_loop_length current_crop current_season lat_factor size_factor
    items recommendations :
  length (recommend_loop latitude longitude current_crop farm_size current_season
            lat_factor size_factor items recommendations)
  = (length recommendations +
     length (List.filter
               (fun item =>
                  negb (String.eqb (PyStr.lower (fst item)) (PyStr.lower current_crop))
                  && (PyStr.str_in current_season (seasons (snd item))
                      || PyStr.str_in "annual" (seasons (snd item))))%bool
               items))%nat.
Proof.
  revert recommendations.
  induction items as [| [name data] items IH]; intros recommendations.
  - cbn. lia.
  - cbn [recommend_loop List.filter fst snd]. unfold recommend_crop.
    destruct (String.eqb (PyStr.lower name) (PyStr.lower current_crop)); cbn [negb andb].
    + apply IH.
    + destruct (PyStr.str_in current_season (seasons data)),
               (PyStr.str_in "annual" (seasons data)); cbn [negb andb orb];
        rewrite IH, ?length_list_append; cbn [length]; lia.
Qed.

Ltac lower_names :=
  repeat match goal with
  | |- context [PyStr.lower (String ?c ?r)] =>
      let v := eval vm_compute in (PyStr.lower (String c r)) in
      change (PyStr.lower (String c r)) with v
  end.

Ltac crop_case s name :=
  let H := fresh "Hname" in
  destruct (String.eqb name s) eqn:H;
  [ apply String.eqb_eq in H; subst s; cbn; lia
  | idtac ].

(** X21. For the rabi season [get_crop_recommendations] always returns
    exactly five recommendations, for the kharif season three or four,
    and for any other season at most one (sugar cane, which grows all the
    year), whatever the current crop, the position and the farm size. *)
Theorem recommendations_count (current_crop season : string) :
  (PyStr.lower season = "rabi" ->
   length (get_crop_recommendations latitude longitude current_crop farm_size season)
   = 5%nat) /\
  (PyStr.lower season = "kharif" ->
   (3 <= length (get_crop_recommendations latitude longitude current_crop
                   farm_size season) <= 4)%nat) /\
  (PyStr.lower season <> "rabi" -> PyStr.lower season <> "kharif" ->
   (length (get_crop_recommendations latitude longitude current_crop
              farm_size season) <= 1)%nat).
Proof.
  unfold get_crop_recommendations.
  rewrite length_take, sort_reverse_length, recommend_loop_length.
  cbn [length Nat.add].
  generalize (PyStr.lower current_crop). intros s.
  split; [| split].
  - intros ->. unfold crop_database.
    cbn [List.filter fst snd seasons]. lower_names.
    crop_case s "wheat". crop_case s "rice". crop_case s "cotton".
    crop_case s "maize". crop_case s "sugarcane". crop_case s "mustard".
    crop_case s "barley". crop_case s "potato".
    cbn. lia.
  - intros ->. unfold crop_database.
    cbn [List.filter fst snd seasons]. lower_names.
    crop_case s "wheat". crop_case s "rice". crop_case s "cotton".
    crop_case s "maize". crop_case s "sugarcane". crop_case s "mustard".
    crop_case s "barley". crop_case s "potato".
    cbn. lia.
  - intros Hr Hk.
    assert (Hrabi : PyStr.str_in (PyStr.lower season) ["rabi"] = false).
    { cbn. rewrite orb_false_r. apply String.eqb_neq. exact Hr. }
    assert (Hkharif : PyStr.str_in (PyStr.lower season) ["kharif"] = false).
    { cbn. rewrite orb_false_r. apply String.eqb_neq. exact Hk. }
    assert (Hboth : PyStr.str_in (PyStr.lower season) ["kharif"; "rabi"] = false).
    { cbn. rewrite orb_false_r. apply orb_false_iff.
      split; apply String.eqb_neq; assumption. }
    unfold crop_database. cbn [List.filter fst snd seasons].
    rewrite Hrabi, Hkharif, Hboth. lower_names.
    change (PyStr.str_in "annual" ["annual"]) with true.
    rewrite orb_true_r.
    repeat match goal with
    | |- context [PyStr.str_in "annual" ?l] =>
        let v := eval vm_compute in (PyStr.str_in "annual" l) in
        change (PyStr.str_in "annual" l) with v
    end.
    cbn [orb]. rewrite !andb_false_r, andb_true_r.
    destruct (String.eqb "sugarcane" s); cbn [negb length Nat.min]; lia.
Qed.

End RecommendationCount.

Section CropTips.

Import CropPredictionApi.

Lemma assoc_get_absent {A} (table : list (string * A)) key default :
  ~ In key (map fst table) -> assoc_get table key default = default.
Proof.
  induction table as [| [k v] table IH]; intros Hnot; [reflexivity |].
  cbn [assoc_get]. destruct (String.eqb k key) eqn:Hk.
  - apply String.eqb_eq in Hk. exfalso. apply Hnot. left. exact Hk.
  - apply IH. intros Hin. apply Hnot. right. exact Hin.
Qed.

(** X22. [get_crop_specific_tips] gives six to eight tips for a crop of
    the crop database (its own six, then at most one for the latitude and
    at most one for the farm size) and three to five for any other crop
    name (the three generic ones, then the same additions); names are
    compared without regard to case. *)
Theorem crop_specific_tips_count (crop_name : string) (latitude longitude farm_size : Q) :
  (In (PyStr.lower crop_name) (map fst crop_database) ->
   (6 <= length (get_crop_specific_tips crop_name latitude longitude farm_size) <= 8)%nat) /\
  (~ In (PyStr.lower crop_name) (map fst crop_database) ->
   (3 <= length (get_crop_specific_tips crop_name latitude longitude farm_size) <= 5)%nat).
Proof.
  unfold get_crop_specific_tips. cbv zeta. rewrite !length_app.
  split; intros Hin.
  - assert (Hcrop : forall default,
              length (assoc_get tips_database (PyStr.lower crop_name) default) = 6%nat).
    { intros default. cbn in Hin.
      repeat (destruct Hin as [<- | Hin]; [reflexivity |]).
      contradiction. }
    rewrite Hcrop.
    destruct (Qltb 31.5 latitude), (Qltb latitude 30.5),
             (Qleb 50 farm_size), (Qleb farm_size 5);
      cbn [length list_append app]; lia.
  - rewrite assoc_get_absent by exact Hin.
    destruct (Qltb 31.5 latitude), (Qltb latitude 30.5),
             (Qleb 50 farm_size), (Qleb farm_size 5);
      cbn [length list_append app]; lia.
Qed.

End CropTips.
